(** * react-equation: the operator core of the equation resolver

    A shallow embedding of [operators] (plus, minus, plusminus, multiply,
    multiplyImplied, divide, power) together with [handleCases], [mapUnit]
    and [mapUnits], and the properties of them stated in the specification.

    Numbers are JavaScript numbers, that is IEEE 754 binary64 values: they
    are Rocq's primitive floats, [+], [*], [/] and unary [-] are the
    primitive operations, [===] on numbers is the IEEE comparison [eqb] and
    truthiness of a number is "neither a zero nor NaN".  [Math.pow] is left
    to the engine by ECMAScript, so it is a parameter of [power].

    A unit lookup is a JavaScript object used as a map from unit names to
    exponents: a [gmap string float] of its own entries.  A read [o[key]]
    finds an own entry first and a member of [Object.prototype] next
    ([JS.inheritedName]).  The embedding follows the program as long as its
    values have their TypeScript types: it follows the test [if (a[key])] of
    [mapUnits] on an inherited member, and it does not follow a mapper that
    is handed such a member in place of a number, nor a write to the key
    [__proto__]; [plainKeys] says of a lookup that none of its unit names is
    the name of a member of [Object.prototype], and the properties that
    depend on such reads assume it. *)

From Stdlib Require Import Floats ZArith.
From stdpp Require Import gmap strings list fin_maps pretty.

Local Open Scope float_scope.

(** ** JavaScript numbers *)

Module JS.

(** [x === y] on two numbers. *)
Definition strictEq (x y : float) : bool := PrimFloat.eqb x y.

(** [x !== y] on two numbers. *)
Definition strictNe (x y : float) : bool := negb (strictEq x y).

(** ToBoolean on a number: false on [+0], [-0] and [NaN]. *)
Definition truthy (x : float) : bool := negb (is_zero x || is_nan x).

(** The names of the members of [Object.prototype] (ECMAScript, with its
    annex B): what a read of a key that is no own entry finds on an object
    made by a literal.  Each of them is a function or an object, so truthy. *)
Definition inheritedNames : list string :=
  ["constructor"; "hasOwnProperty"; "isPrototypeOf"; "propertyIsEnumerable";
   "toLocaleString"; "toString"; "valueOf"; "__proto__";
   "__defineGetter__"; "__defineSetter__"; "__lookupGetter__"; "__lookupSetter__"].

Definition inheritedName (key : string) : bool := bool_decide (key ∈ inheritedNames).

(** ToBoolean on the read [o[key]] of a lookup: the own entry if there is
    one, else the inherited member if [key] names one (truthy), else
    [undefined] (falsy). *)
Definition truthyRead (o : gmap string float) (key : string) : bool :=
  match o !! key with
  | Some x => truthy x
  | None => inheritedName key
  end.

(** [x || 0] on the result [x] of a read that found an own entry or nothing.
    (Where the read finds an inherited member, the source hands that member
    on: a value that is not a number, which the embedding does not follow.) *)
Definition orZero (o : option float) : float :=
  match o with
  | Some x => if truthy x then x else 0
  | None => 0
  end.

End JS.

Infix "===" := JS.strictEq (at level 70, no associativity) : float_scope.
Infix "!==" := JS.strictNe (at level 70, no associativity) : float_scope.

#[global] Instance float_eq_dec : EqDecision float.
Proof.
  intros x y. destruct (PrimFloat.Leibniz.eqb x y) eqn:E.
  - left. by apply FloatAxioms.Leibniz.eqb_spec.
  - right. intros H. apply FloatAxioms.Leibniz.eqb_spec in H. congruence.
Defined.

(** ** Results of evaluation: a value or a thrown exception *)

Inductive exn : Type :=
  | Error (message : string)
      (* [throw new Error(message)] *)
  | TypeError
      (* the engine's TypeError: a property read on [undefined] *)
  | Unmodelled.
      (* the embedding was left: a cast [as T] met a value that is not a T,
         or a recursive call was made with no fuel; see the [_modelled]
         lemmas, which show that no operator ends here *)

Inductive result (A : Type) : Type :=
  | Ok (x : A)
  | Throw (e : exn).
Arguments Ok {A} x.
Arguments Throw {A} e.

#[global] Instance result_ret : MRet result := fun A x => Ok x.
#[global] Instance result_bind : MBind result := fun A B f r =>
  match r with
  | Ok x => f x
  | Throw e => Throw e
  end.

(** [l.map(f)] where [f] may throw: cells are visited left to right and the
    first exception ends the traversal.  [f] receives the index too. *)
Fixpoint mapFrom {A B} (i : nat) (f : A -> nat -> result B) (l : list A)
  : result (list B) :=
  match l with
  | [] => Ok []
  | x :: l' => y ← f x i; ys ← mapFrom (S i) f l'; Ok (y :: ys)
  end.
Definition arrayMap {A B} (f : A -> nat -> result B) (l : list A) :=
  mapFrom 0 f l.

(** [l.reduce(f, init)] where [f] may throw. *)
Fixpoint reduceFrom {A B} (i : nat) (f : B -> A -> nat -> result B)
    (current : B) (l : list A) : result B :=
  match l with
  | [] => Ok current
  | x :: l' => next ← f current x i; reduceFrom (S i) f next l'
  end.
Definition arrayReduce {A B} (f : B -> A -> nat -> result B) (init : B)
    (l : list A) : result B :=
  reduceFrom 0 f init l.

(** [l[i]] followed by a property read: [undefined] makes the read throw. *)
Definition at_ {A} (l : list A) (i : nat) : result A :=
  match l !! i with
  | Some x => Ok x
  | None => Throw TypeError
  end.

(** ** The data model (types.ts) *)

Abbreviation UnitLookup := (gmap string float).

Record ResultTreeNumber : Type := mkNumber { value : float }.

Record ResultTreeMatrix : Type := mkMatrix {
  m : nat;
  n : nat;
  values : list (list ResultTreeNumber)
}.

(** The tag [type] is the constructor.  TypeScript types the payload of a
    unit as a number or a matrix; the embedding does not, the predicate
    [flat] below says it. *)
Inductive ResultTree : Type :=
  | Number (x : ResultTreeNumber)
  | Matrix (x : ResultTreeMatrix)
  | Unit (units : UnitLookup) (value : ResultTree).

Definition isUnit (x : ResultTree) : bool :=
  match x with
  | Unit _ _ => true
  | _ => false
  end.

(** No unit wraps a unit. *)
Definition flat (x : ResultTree) : bool :=
  match x with
  | Unit _ v => negb (isUnit v)
  | _ => true
  end.

(** Number of unit layers around the payload. *)
Fixpoint unitDepth (x : ResultTree) : nat :=
  match x with
  | Unit _ v => S (unitDepth v)
  | _ => 0
  end.

(** The invariant of the data model on a matrix: [m] rows of [n] cells. *)
Definition shaped (x : ResultTreeMatrix) : Prop :=
  length (values x) = m x /\ Forall (fun row => length row = n x) (values x).

(** The cast [e as ResultTreeNumber]. *)
Definition asNumber (r : result ResultTree) : result ResultTreeNumber :=
  x ← r;
  match x with
  | Number v => Ok v
  | _ => Throw Unmodelled
  end.

(** ** Helpers imported by the operators *)

(** Modelled from the spec: value-wrap.ts is missing; [wrapValue] "constructs
    a scalar result". *)
Definition valueWrap (x : float) : ResultTreeNumber := {| value := x |}.

(** Modelled from the spec: unit-utils.ts is missing; [getUnit] "returns
    x.units if x is a Unit, else an empty map". *)
Definition getUnit (x : ResultTree) : UnitLookup :=
  match x with
  | Unit units _ => units
  | _ => ∅
  end.

(** Modelled from the spec: unit-utils.ts is missing; [getUnitless] "returns
    x.value if x is Unit, else x unchanged". *)
Definition getUnitless (x : ResultTree) : ResultTree :=
  match x with
  | Unit _ value => value
  | _ => x
  end.

(** Modelled from the spec: unit-utils.ts is missing; [isEmptyUnit] is "true
    iff the map has no entries". *)
Definition isEmptyUnit (u : UnitLookup) : bool := bool_decide (u = ∅).

(** Modelled from the spec: unit-utils.ts is missing; [isSameUnit] is "true
    iff [the two maps] have identical key sets and identical exponents for
    every key".  The operators call it on two unit lookups. *)
Definition isSameUnit (a b : UnitLookup) : bool := bool_decide (a = b).

(** Modelled from the spec: map-matrix.ts is missing; [mapMatrix] "applies f
    to every cell, returns a new Matrix of identical shape", with "no error
    conditions beyond propagating errors raised by f". *)
Definition mapMatrix (x : ResultTreeMatrix)
    (f : ResultTreeNumber -> result ResultTreeNumber) : result ResultTreeMatrix :=
  vs ← arrayMap (fun row _ => arrayMap (fun cell _ => f cell) row) (values x);
  Ok {| m := m x; n := n x; values := vs |}.

(** Modelled from the spec: negate.ts is missing; [negate] "flips the sign
    of every scalar leaf; unit annotations and matrix shape are preserved
    unchanged". *)
Fixpoint negate (x : ResultTree) : ResultTree :=
  match x with
  | Number a => Number (valueWrap (- value a))
  | Matrix a =>
      Matrix {| m := m a; n := n a;
                values := map (map (fun cell => valueWrap (- value cell))) (values a) |}
  | Unit units v => Unit units (negate v)
  end.

(** ** Unit algebra *)

(** A value together with the keys at which the mapper was called, in call
    order.  The log is ghost state: the source has none, it is there to
    count the calls. *)
Definition Traced (A : Type) : Type := A * list string.

(** One turn of the loop of [mapUnit], on the entry [key, value]. *)
Definition mapUnitStep (mapper : float -> string -> float)
    (key : string) (value : float) (acc : Traced UnitLookup) : Traced UnitLookup :=
  let newValue := mapper value key in
  (if newValue !== 0 then <[key := newValue]> acc.1 else acc.1, acc.2 ++ [key]).

Definition mapUnitTraced (x : UnitLookup) (mapper : float -> string -> float)
  : Traced UnitLookup :=
  map_fold (mapUnitStep mapper) (∅, []) x.

Definition mapUnit (x : UnitLookup) (mapper : float -> string -> float) : UnitLookup :=
  (mapUnitTraced x mapper).1.

(** One turn of the second loop of [mapUnits], on the entry [key, value] of
    b.  The test [if (a[key])] is a read: it is true on a truthy own entry
    of a and on a member that a inherits. *)
Definition mapUnitsStep (a : UnitLookup) (mapper : float -> float -> string -> float)
    (key : string) (value : float) (acc : Traced UnitLookup) : Traced UnitLookup :=
  if JS.truthyRead a key then acc
  else
    let newValue := mapper 0 value key in
    (if newValue !== 0 then <[key := newValue]> acc.1 else acc.1, acc.2 ++ [key]).

(** [mapUnits].  In the first loop [b[key] || 0] is an own entry of b or 0:
    the embedding follows it for a key that is in b or names no member of
    [Object.prototype] (for the other keys of a the source hands the
    inherited member to the mapper, see [plainKeys]). *)
Definition mapUnitsTraced (a b : UnitLookup)
    (mapper : float -> float -> string -> float) : Traced UnitLookup :=
  (* Get all units from a *)
  let result := mapUnitTraced a (fun value key => mapper value (JS.orZero (b !! key)) key) in
  (* Get remaining units from b *)
  map_fold (mapUnitsStep a mapper) result b.

Definition mapUnits (a b : UnitLookup)
    (mapper : float -> float -> string -> float) : UnitLookup :=
  (mapUnitsTraced a b mapper).1.

(** How often the mapper was called at [key]. *)
Definition calls (key : string) (log : list string) : nat :=
  length (filter (fun k => k = key) log).

(** ** The case handler *)

Definition combinator (A B : Type) : Type := option (A -> B -> result ResultTree).

(** The [switch] of [handleCases]: both operands are unitless. *)
Definition dispatch (a b : ResultTree)
    (numberNumber : combinator ResultTreeNumber ResultTreeNumber)
    (numberMatrix : combinator ResultTreeNumber ResultTreeMatrix)
    (matrixNumber : combinator ResultTreeMatrix ResultTreeNumber)
    (matrixMatrix : combinator ResultTreeMatrix ResultTreeMatrix)
  : result ResultTree :=
  match a, b with
  | Number a, Number b =>
      match numberNumber with
      | Some f => f a b
      | None => Throw (Error "Equation resolve: cannot handle operator")
      end
  | Number a, Matrix b =>
      match numberMatrix with
      | Some f => f a b
      | None => Throw (Error "Equation resolve: cannot handle operator")
      end
  | Matrix a, Number b =>
      match matrixNumber with
      | Some f => f a b
      | None => Throw (Error "Equation resolve: cannot handle operator")
      end
  | Matrix a, Matrix b =>
      match matrixMatrix with
      | Some f => f a b
      | None => Throw (Error "Equation resolve: cannot handle operator")
      end
  | _, _ => Throw (Error "Equation resolve: cannot handle operator")
  end.

(** [handleCases], by recursion on the number of unit layers left. *)
Fixpoint handleCasesFrom (layers : nat) (a b : ResultTree)
    (combineUnits : UnitLookup -> UnitLookup -> result UnitLookup)
    (numberNumber : combinator ResultTreeNumber ResultTreeNumber)
    (numberMatrix : combinator ResultTreeNumber ResultTreeMatrix)
    (matrixNumber : combinator ResultTreeMatrix ResultTreeNumber)
    (matrixMatrix : combinator ResultTreeMatrix ResultTreeMatrix)
  : result ResultTree :=
  if isUnit a || isUnit b then
    match layers with
    | O => Throw Unmodelled
    | S layers' =>
        units ← combineUnits (getUnit a) (getUnit b);
        result ← handleCasesFrom layers' (getUnitless a) (getUnitless b)
                   combineUnits numberNumber numberMatrix matrixNumber matrixMatrix;
        if isEmptyUnit units then Ok result
        else Ok (Unit units result)
    end
  else dispatch a b numberNumber numberMatrix matrixNumber matrixMatrix.

Definition handleCases (a b : ResultTree) :=
  handleCasesFrom (unitDepth a + unitDepth b) a b.

(** ** The operators *)

#[global] Instance result_fmap : FMap result := fun A B f r => x ← r; Ok (f x).

Definition dims (x : ResultTreeMatrix) : string :=
  pretty (m x) +:+ "x" +:+ pretty (n x).

(** The body of [plus]; [plus] itself is the recursive call. *)
Definition plusBody (plus : ResultTree -> ResultTree -> result ResultTree)
    (aTree bTree : ResultTree) : result ResultTree :=
  handleCases aTree bTree
    (fun a b =>
       if negb (isSameUnit a b)
       then Throw (Error "Equation resolve: cannot add different units")
       else Ok a)
    (* number, number *)
    (Some (fun a b => Ok (Number (valueWrap (value a + value b)))))
    (* number, matrix *)
    (Some (fun a b =>
       Matrix <$> mapMatrix b (fun cell => asNumber (plus (Number a) (Number cell)))))
    (* matrix, number *)
    (Some (fun a b =>
       Matrix <$> mapMatrix a (fun cell => asNumber (plus (Number cell) (Number b)))))
    (* matrix, matrix *)
    (Some (fun a b =>
       if negb (n a =? n b)%nat || negb (m a =? m b)%nat
       then Throw (Error ("Equation resolve: cannot add " +:+ dims a
                            +:+ " matrix to " +:+ dims b +:+ " matrix"))
       else
         vs ← arrayMap (fun row rowIdx =>
                 arrayMap (fun cell cellIdx =>
                    bRow ← at_ (values b) rowIdx;
                    bCell ← at_ bRow cellIdx;
                    asNumber (plus (Number cell) (Number bCell))) row)
               (values a);
         Ok (Matrix {| m := m a; n := n a; values := vs |}))).

Fixpoint plusFuel (fuel : nat) : ResultTree -> ResultTree -> result ResultTree :=
  match fuel with
  | O => fun _ _ => Throw Unmodelled
  | S fuel' => plusBody (plusFuel fuel')
  end.

(** A call of [plus] from inside [plus] is on two numbers and makes no
    further call: two levels are all there is (lemma [plus_unfold]). *)
Definition plus : ResultTree -> ResultTree -> result ResultTree := plusFuel 2.

Definition minus (a b : ResultTree) : result ResultTree := plus a (negate b).

Definition plusminus (a b : ResultTree) : result ResultTree :=
  Throw (Error "Equation resolve: cannot handle ± operator").

Definition scalarProduct (a b : ResultTreeMatrix) : result ResultTreeNumber :=
  if negb (m a =? m b)%nat
  then Throw (Error "Equation resolve: scalar product requires balanced vectors")
  else
    sum ← arrayReduce (fun current row rowIdx =>
              x ← at_ row 0;
              bRow ← at_ (values b) rowIdx;
              y ← at_ bRow 0;
              Ok (current + value x * value y))
            0 (values a);
    Ok (valueWrap sum).

Definition matrixProduct (a b : ResultTreeMatrix) : result ResultTreeMatrix :=
  if negb (n a =? m b)%nat
  then Throw (Error ("Equation resolve: cannot multiply " +:+ dims a
                       +:+ " matrix with " +:+ dims b +:+ " matrix"))
  else
    vs ← arrayMap (fun row aRow =>
            bFirst ← at_ (values b) 0;
            arrayMap (fun cell bCol =>
               aCells ← at_ (values a) aRow;
               sum ← arrayReduce (fun current innerCell colIdx =>
                         bRow ← at_ (values b) colIdx;
                         y ← at_ bRow bCol;
                         Ok (current + value innerCell * value y))
                       0 aCells;
               Ok (valueWrap sum)) bFirst)
          (values a);
    Ok {| m := m a; n := n b; values := vs |}.

Definition multiplyBody (multiply : ResultTree -> ResultTree -> result ResultTree)
    (aTree bTree : ResultTree) : result ResultTree :=
  handleCases aTree bTree
    (fun a b => Ok (mapUnits a b (fun unit1 unit2 _ => unit1 + unit2)))
    (* number, number *)
    (Some (fun a b => Ok (Number (valueWrap (value a * value b)))))
    (* number, matrix *)
    (Some (fun a b =>
       Matrix <$> mapMatrix b (fun cell => asNumber (multiply (Number a) (Number cell)))))
    (* matrix, number *)
    (Some (fun a b =>
       Matrix <$> mapMatrix a (fun cell => asNumber (multiply (Number cell) (Number b)))))
    (* matrix, matrix *)
    (Some (fun a b =>
       if (n a =? 1)%nat && (n b =? 1)%nat
       then Number <$> scalarProduct a b
       else Matrix <$> matrixProduct a b)).

Fixpoint multiplyFuel (fuel : nat) : ResultTree -> ResultTree -> result ResultTree :=
  match fuel with
  | O => fun _ _ => Throw Unmodelled
  | S fuel' => multiplyBody (multiplyFuel fuel')
  end.

Definition multiply : ResultTree -> ResultTree -> result ResultTree := multiplyFuel 2.

Definition multiplyImplied (a b : ResultTree) : result ResultTree :=
  match a, b with
  | Matrix ma, Matrix mb =>
      if (n ma =? 1)%nat && (n mb =? 1)%nat
      then Throw (Error "Equation resolve: cannot use implied multiplication for scalar product")
      else multiply a b
  | _, _ => multiply a b
  end.

(** [bTree.type === 'number' && bTree.value === 0] *)
Definition isNumberZero (bTree : ResultTree) : bool :=
  match bTree with
  | Number b => value b === 0
  | _ => false
  end.

Definition divideBody (divide : ResultTree -> ResultTree -> result ResultTree)
    (aTree bTree : ResultTree) : result ResultTree :=
  if isNumberZero bTree
  then Throw (Error "Equation resolve: cannot divide by 0")
  else
    handleCases aTree bTree
      (fun a b => Ok (mapUnits a b (fun factor1 factor2 _ => factor1 - factor2)))
      (* number, number *)
      (Some (fun a b => Ok (Number (valueWrap (value a / value b)))))
      (* number, matrix *)
      (Some (fun a b =>
         Matrix <$> mapMatrix b (fun cell => asNumber (divide (Number a) (Number cell)))))
      (* matrix, number *)
      (Some (fun a b =>
         Matrix <$> mapMatrix a (fun cell => asNumber (divide (Number cell) (Number b)))))
      (* matrix, matrix *)
      None.

Fixpoint divideFuel (fuel : nat) : ResultTree -> ResultTree -> result ResultTree :=
  match fuel with
  | O => fun _ _ => Throw Unmodelled
  | S fuel' => divideBody (divideFuel fuel')
  end.

Definition divide : ResultTree -> ResultTree -> result ResultTree := divideFuel 2.

Inductive Operator : Type :=
  | OpPlus | OpMinus | OpPlusMinus | OpMultiply | OpMultiplyImplied | OpDivide | OpPower.

Section Engine.

(** [Math.pow], which ECMAScript leaves to the engine. *)
Variable Math_pow : float -> float -> float.

Definition power (aTree bTree : ResultTree) : result ResultTree :=
  if isUnit bTree
  then Throw (Error "Equation resolve: exponent must be unitless")
  else
    match bTree with
    | Number bNumber =>
        handleCases aTree bTree
          (fun a _ => Ok (mapUnit a (fun factor _ => factor * value bNumber)))
          (* number, number *)
          (Some (fun a b => Ok (Number (valueWrap (Math_pow (value a) (value b))))))
          (* number, matrix *)
          None
          (* matrix, number *)
          (Some (fun a b =>
             Matrix <$> mapMatrix a
                          (fun cell => Ok (valueWrap (Math_pow (value cell) (value b))))))
          (* matrix, matrix *)
          None
    | _ => Throw (Error "Equation resolve: exponent must be a number")
    end.

Definition operators (op : Operator) : ResultTree -> ResultTree -> result ResultTree :=
  match op with
  | OpPlus => plus
  | OpMinus => minus
  | OpPlusMinus => plusminus
  | OpMultiply => multiply
  | OpMultiplyImplied => multiplyImplied
  | OpDivide => divide
  | OpPower => power
  end.

End Engine.

(** ** Vocabulary of the statements *)

(** *** Values *)

(** A bare number. *)
Definition number (x : float) : ResultTree := Number (valueWrap x).

(** [3[m]], a number with the unit metre. *)
Definition metres (x : float) : ResultTree := Unit {[ "m" := 1 ]} (number x).

(** The matrix with the single cell [x]. *)
Definition matrix_1x1 (x : float) : ResultTreeMatrix :=
  {| m := 1; n := 1; values := [[valueWrap x]] |}.

(** The column vector of the given cells. *)
Definition column (cells : list float) : ResultTreeMatrix :=
  {| m := length cells; n := 1; values := map (fun x => [valueWrap x]) cells |}.

(** A number, bare or with units. *)
Definition isScalar (x : ResultTree) : bool :=
  match x with
  | Number _ => true
  | Unit _ (Number _) => true
  | _ => false
  end.

(** *** The case handler and its combinators *)

(** A combinator keeps to its TypeScript result type, a number or a matrix. *)
Definition unitlessValued {A B} (f : combinator A B) : Prop :=
  forall g x y v, f = Some g -> g x y = Ok v -> isUnit v = false.

(** Two combinators that agree on every pair of operands. *)
Definition agree {A B} (f g : combinator A B) : Prop :=
  match f, g with
  | Some f, Some g => forall x y, f x y = g x y
  | None, None => True
  | _, _ => False
  end.

(** The combinators of 3[m] * 4: the units of [multiply], its product of two
    numbers, and no other case. *)
Definition productOfNumbers : combinator ResultTreeNumber ResultTreeNumber :=
  Some (fun a b => Ok (Number (valueWrap (value a * value b)))).

(** An outcome that a run of the program can have. *)
Definition modelled {A} (r : result A) : Prop := r <> Throw Unmodelled.

Definition modelledCombinator {A B} (f : combinator A B) : Prop :=
  forall g x y, f = Some g -> modelled (g x y).

(** *** Exceptions and zero cells *)

(** The exceptions of [divide] and [multiplyImplied]. *)
Definition divisionByZero : exn := Error "Equation resolve: cannot divide by 0".

Definition impliedScalarProduct : exn :=
  Error "Equation resolve: cannot use implied multiplication for scalar product".

(** [cell.value === 0]: the cell is one of the two zeros. *)
Definition isZeroCell (cell : ResultTreeNumber) : bool := value cell === 0.

Definition hasZeroCell (x : ResultTreeMatrix) : bool :=
  existsb (existsb isZeroCell) (values x).

(** *** Unit lookups *)

(** The entry that one turn of a loop leaves at its key, if any. *)
Definition kept (newValue : float) : option float :=
  if newValue !== 0 then Some newValue else None.


(** The cells of a matrix raised to [b] by [pow]. *)
Definition cellsToThe (pow : float -> float -> float) (a : ResultTreeMatrix) (b : float)
  : ResultTreeMatrix :=
  {| m := m a; n := n a;
     values := map (map (fun cell => valueWrap (pow (value cell) b))) (values a) |}.

(** The first loop of [mapUnits]. *)
Definition firstLoop (a b : UnitLookup) (mapper : float -> float -> string -> float)
  : Traced UnitLookup :=
  mapUnitTraced a (fun value key => mapper value (JS.orZero (b !! key)) key).

(** No unit name of the lookup is the name of a member of
    [Object.prototype]: every read of the lookup at one of its keys, and of
    another lookup at one of these keys, finds an own entry or nothing. *)
Definition plainKeys (u : UnitLookup) : Prop :=
  forall key, is_Some (u !! key) -> JS.inheritedName key = false.

(** [x[constructor]]: a number whose unit has the name of a member of
    [Object.prototype]. *)
Definition constructors (x : float) : ResultTree :=
  Unit {[ "constructor" := 1 ]} (number x).

(** The invariant under which the second loop of [mapUnits] visits exactly
    the keys that the first did not: no exponent of [a] is a zero or NaN. *)
Definition truthyExponents (a : UnitLookup) : Prop :=
  forall key value, a !! key = Some value -> JS.truthy value = true.

(** The mapper of [multiply]. *)
Definition addExponents (unit1 unit2 : float) (_ : string) : float := unit1 + unit2.

(** *** Matrices *)

(** The data model on a matrix: at least one row and one column, [m] rows of
    [n] cells. *)
Definition wellFormed (x : ResultTreeMatrix) : Prop :=
  (1 <= m x)%nat /\ (1 <= n x)%nat /\ shaped x.

(** The cell in row [i] and column [j], counted from 0. *)
Definition cell (x : ResultTreeMatrix) (i j : nat) : float :=
  value (nth j (nth i (values x) []) (valueWrap 0)).

(** The sum of the products [term k] for k from 0 below [len], added up from
    0 in this order, as [reduce] does. *)
Definition sumOfProducts (len : nat) (term : nat -> float) : float :=
  fold_left (fun current k => current + term k) (seq 0 len) 0.

(** Sum of the pairwise products of two columns. *)
Definition dotProduct (a b : ResultTreeMatrix) : float :=
  sumOfProducts (m a) (fun i => cell a i 0 * cell b i 0).

(** The inner product of row [i] of [a] and column [j] of [b]. *)
Definition innerProduct (a b : ResultTreeMatrix) (i j : nat) : float :=
  sumOfProducts (n a) (fun k => cell a i k * cell b k j).

(** The cells of the matrix product. *)
Definition productValues (a b : ResultTreeMatrix) : list (list ResultTreeNumber) :=
  map (fun i => map (fun j => valueWrap (innerProduct a b i j)) (seq 0 (n b)))
      (seq 0 (m a)).

(** *** The data model on whole values *)

(** The last step of [handleCases]: the result bare under an empty lookup,
    inside one [Unit] otherwise. *)
Definition withUnits (units : UnitLookup) (result : ResultTree) : ResultTree :=
  if isEmptyUnit units then result else Unit units result.

(** The mapper of [divide]. *)
Definition subExponents (factor1 factor2 : float) (_ : string) : float :=
  factor1 - factor2.

(** The matrix of the same shape with [g] applied to every cell. *)
Definition mapCells (g : ResultTreeNumber -> ResultTreeNumber) (a : ResultTreeMatrix)
  : ResultTreeMatrix :=
  {| m := m a; n := n a; values := map (map g) (values a) |}.

(** No exponent of the lookup is a zero. *)
Definition noZeroExponent (u : UnitLookup) : Prop :=
  forall key value, u !! key = Some value -> (value !== 0) = true.

(** A number, or a matrix with at least one row and one column and [m] rows
    of [n] cells: a payload of the data model. *)
Definition unitless (x : ResultTree) : Prop :=
  match x with
  | Number _ => True
  | Matrix a => wellFormed a
  | Unit _ _ => False
  end.

(** A value of the data model: a payload, bare or inside one unit, and no
    zero exponent. *)
Definition valid (x : ResultTree) : Prop :=
  unitless (getUnitless x) /\ noZeroExponent (getUnit x).

(** An outcome of the data model: a value of it, or an [Error] of the
    operators; not the engine's TypeError. *)
Definition keepsDataModel (r : result ResultTree) : Prop :=
  match r with
  | Ok v => valid v
  | Throw (Error _) => True
  | Throw _ => False
  end.

(** The same for a payload and for a lookup. *)
Definition keepsPayload (r : result ResultTree) : Prop :=
  match r with
  | Ok v => unitless v
  | Throw (Error _) => True
  | Throw _ => False
  end.

Definition keepsLookup (r : result UnitLookup) : Prop :=
  match r with
  | Ok u => noZeroExponent u
  | Throw (Error _) => True
  | Throw _ => False
  end.

(** Neither NaN nor an infinity. *)
Definition finiteExponents (u : UnitLookup) : Prop :=
  forall key value, u !! key = Some value -> is_finite value = true.

(** The exception of [plus] on different units. *)
Definition differentUnits : exn := Error "Equation resolve: cannot add different units".

(** A matrix of two rows and two columns. *)
Definition matrix_2x2 (a b c d : float) : ResultTreeMatrix :=
  {| m := 2; n := 2; values := [[valueWrap a; valueWrap b]; [valueWrap c; valueWrap d]] |}.

(** [x[s]], a number with the unit second. *)
Definition seconds (x : float) : ResultTree := Unit {[ "s" := 1 ]} (number x).

(** The cells [f i j] for i below [rows] and j below [cols]. *)
Definition tabulate (rows cols : nat) (f : nat -> nat -> float)
  : list (list ResultTreeNumber) :=
  map (fun i => map (fun j => valueWrap (f i j)) (seq 0 cols)) (seq 0 rows).

(** The cell by cell sum of two matrices, with the shape of the left one. *)
Definition sumOfMatrices (a b : ResultTreeMatrix) : ResultTreeMatrix :=
  {| m := m a; n := n a;
     values := tabulate (m a) (n a) (fun i j => cell a i j + cell b i j) |}.

(** * Properties *)

(** ** The case handler *)

Section HandleCases.

Context (combineUnits : UnitLookup -> UnitLookup -> result UnitLookup)
        (numberNumber : combinator ResultTreeNumber ResultTreeNumber)
        (numberMatrix : combinator ResultTreeNumber ResultTreeMatrix)
        (matrixNumber : combinator ResultTreeMatrix ResultTreeNumber)
        (matrixMatrix : combinator ResultTreeMatrix ResultTreeMatrix).

Local Abbreviation hcFrom k a b :=
  (handleCasesFrom k a b combineUnits numberNumber numberMatrix matrixNumber matrixMatrix).
Local Abbreviation hc a b :=
  (handleCases a b combineUnits numberNumber numberMatrix matrixNumber matrixMatrix).
Local Abbreviation switch a b :=
  (dispatch a b numberNumber numberMatrix matrixNumber matrixMatrix).

Lemma unitDepth_getUnitless a : unitDepth (getUnitless a) = pred (unitDepth a).
Proof. by destruct a. Qed.

Lemma unitDepth_isUnit a : isUnit a = true -> (0 < unitDepth a)%nat.
Proof. destruct a; simpl; [done | done | lia]. Qed.

Lemma unitDepth_stripped a b :
  isUnit a || isUnit b = true ->
  (unitDepth (getUnitless a) + unitDepth (getUnitless b) < unitDepth a + unitDepth b)%nat.
Proof.
  rewrite !unitDepth_getUnitless. intros [H | H]%orb_true_iff;
    apply unitDepth_isUnit in H; lia.
Qed.

(** Any number of layers that covers the operands gives the same result:
    the recursion of [handleCases] ends. *)
Lemma handleCasesFrom_enough k1 : forall k2 a b,
  (unitDepth a + unitDepth b <= k1)%nat ->
  (unitDepth a + unitDepth b <= k2)%nat ->
  hcFrom k1 a b = hcFrom k2 a b.
Proof.
  induction k1 as [| k1 IH]; intros k2 a b H1 H2.
  - destruct k2 as [| k2]; [done |]. simpl.
    destruct (isUnit a || isUnit b) eqn:E; [| done].
    apply unitDepth_stripped in E. lia.
  - destruct k2 as [| k2]; simpl.
    + destruct (isUnit a || isUnit b) eqn:E; [| done].
      apply unitDepth_stripped in E. lia.
    + destruct (isUnit a || isUnit b) eqn:E; [| done].
      pose proof (unitDepth_stripped _ _ E).
      rewrite (IH k2) by lia. done.
Qed.

(** The equation of the source: [handleCases] in terms of itself. *)
Lemma handleCases_unfold a b :
  hc a b =
    if isUnit a || isUnit b then
      units ← combineUnits (getUnit a) (getUnit b);
      result ← hc (getUnitless a) (getUnitless b);
      if isEmptyUnit units then Ok result else Ok (Unit units result)
    else switch a b.
Proof.
  unfold handleCases at 1.
  destruct (unitDepth a + unitDepth b)%nat as [| k] eqn:Ek; simpl.
  - destruct (isUnit a || isUnit b) eqn:E; [| done].
    apply unitDepth_stripped in E. lia.
  - destruct (isUnit a || isUnit b) eqn:E; [| done].
    pose proof (unitDepth_stripped _ _ E).
    unfold handleCases.
    rewrite (handleCasesFrom_enough k (unitDepth (getUnitless a) + unitDepth (getUnitless b)))
      by lia.
    done.
Qed.

Lemma handleCases_unitless a b :
  isUnit a = false -> isUnit b = false -> hc a b = switch a b.
Proof. intros Ha Hb. rewrite handleCases_unfold, Ha, Hb. done. Qed.

Lemma flat_getUnitless a : flat a = true -> isUnit (getUnitless a) = false.
Proof. destruct a; simpl; [done | done |]. by intros ->%negb_true_iff. Qed.

End HandleCases.

Lemma dispatch_unitless a b nn nm mn mm v :
  unitlessValued nn -> unitlessValued nm -> unitlessValued mn -> unitlessValued mm ->
  dispatch a b nn nm mn mm = Ok v -> isUnit v = false.
Proof.
  intros Hnn Hnm Hmn Hmm.
  destruct a as [a | a | ua va], b as [b | b | ub vb]; simpl; try done.
  - destruct nn as [f |] eqn:E; [| done]. intros H. by eapply Hnn.
  - destruct nm as [f |] eqn:E; [| done]. intros H. by eapply Hnm.
  - destruct mn as [f |] eqn:E; [| done]. intros H. by eapply Hmn.
  - destruct mm as [f |] eqn:E; [| done]. intros H. by eapply Hmm.
Qed.

(** C1. When an operand of [handleCases] is a unit (and the operands are
    values of the data model: no unit inside a unit, combinators returning a
    number or a matrix), the units are combined once, and first: the result
    is the combination's exception if it throws; otherwise the stripped
    payloads go straight to the shape dispatch, with no further unit
    handling, and the outcome is returned bare when the combined lookup is
    empty and inside exactly one [Unit] otherwise.  So the value returned
    never has a unit inside a unit. *)
Theorem handleCases_unit_layer
    (a b : ResultTree)
    (combineUnits : UnitLookup -> UnitLookup -> result UnitLookup)
    (numberNumber : combinator ResultTreeNumber ResultTreeNumber)
    (numberMatrix : combinator ResultTreeNumber ResultTreeMatrix)
    (matrixNumber : combinator ResultTreeMatrix ResultTreeNumber)
    (matrixMatrix : combinator ResultTreeMatrix ResultTreeMatrix) :
  flat a = true -> flat b = true ->
  isUnit a || isUnit b = true ->
  unitlessValued numberNumber -> unitlessValued numberMatrix ->
  unitlessValued matrixNumber -> unitlessValued matrixMatrix ->
  let recursion :=
    handleCases (getUnitless a) (getUnitless b)
      combineUnits numberNumber numberMatrix matrixNumber matrixMatrix in
  handleCases a b combineUnits numberNumber numberMatrix matrixNumber matrixMatrix
    = (units ← combineUnits (getUnit a) (getUnit b);
       result ← recursion;
       if isEmptyUnit units then Ok result else Ok (Unit units result))
  /\ recursion
       = dispatch (getUnitless a) (getUnitless b)
           numberNumber numberMatrix matrixNumber matrixMatrix
  /\ (forall e, combineUnits (getUnit a) (getUnit b) = Throw e ->
        handleCases a b combineUnits numberNumber numberMatrix matrixNumber matrixMatrix
          = Throw e)
  /\ (forall v,
        handleCases a b combineUnits numberNumber numberMatrix matrixNumber matrixMatrix
          = Ok v ->
        flat v = true /\
        exists units result,
          combineUnits (getUnit a) (getUnit b) = Ok units /\
          recursion = Ok result /\
          isUnit result = false /\
          v = if isEmptyUnit units then result else Unit units result).
Proof.
  intros Fa Fb Hu Hnn Hnm Hmn Hmm recursion.
  assert (Hrec : recursion
                 = dispatch (getUnitless a) (getUnitless b)
                     numberNumber numberMatrix matrixNumber matrixMatrix).
  { subst recursion. apply handleCases_unitless; by apply flat_getUnitless. }
  assert (Heq : handleCases a b combineUnits numberNumber numberMatrix matrixNumber matrixMatrix
                = (units ← combineUnits (getUnit a) (getUnit b);
                   result ← recursion;
                   if isEmptyUnit units then Ok result else Ok (Unit units result))).
  { rewrite handleCases_unfold, Hu. done. }
  split; [done |]. split; [done |]. split.
  - intros e He. rewrite Heq, He. done.
  - intros v. rewrite Heq.
    destruct (combineUnits (getUnit a) (getUnit b)) as [units | e]; simpl; [| done].
    destruct recursion as [result | e] eqn:Er; simpl; [| done].
    assert (isUnit result = false) as Hres.
    { rewrite Hrec in Er. by eapply dispatch_unitless. }
    intros Hv. split.
    + destruct (isEmptyUnit units); injection Hv as <-; simpl.
      * by destruct result.
      * by rewrite Hres.
    + exists units, result. repeat split; [done |].
      by destruct (isEmptyUnit units); injection Hv as <-.
Qed.

Lemma unitlessValued_None {A B} : unitlessValued (@None (A -> B -> result ResultTree)).
Proof. by intros g x y v [=]. Qed.

Lemma productOfNumbers_unitless : unitlessValued productOfNumbers.
Proof. intros g x y v [= <-] [= <-]. reflexivity. Qed.

Lemma handleCases_unit_layer_witness :
  let a := Unit {[ "m" := 1 ]} (Number (valueWrap 3)) in
  let b := Number (valueWrap 4) in
  let sumExponents := fun ua ub => Ok (mapUnits ua ub (fun unit1 unit2 _ => unit1 + unit2)) in
  flat a = true /\ flat b = true /\ isUnit a || isUnit b = true /\
  handleCases a b sumExponents productOfNumbers None None None
    = Ok (Unit {[ "m" := 1 ]} (Number (valueWrap 12))) /\
  flat (Unit {[ "m" := 1 ]} (Number (valueWrap 12))) = true.
Proof.
  intros a b sumExponents.
  destruct (handleCases_unit_layer a b sumExponents productOfNumbers None None None
              eq_refl eq_refl eq_refl productOfNumbers_unitless
              unitlessValued_None unitlessValued_None unitlessValued_None)
    as (Heq & _ & _ & Hflat).
  assert (Hvalue : handleCases a b sumExponents productOfNumbers None None None
                   = Ok (Unit {[ "m" := 1 ]} (Number (valueWrap 12)))).
  { rewrite Heq. vm_compute. reflexivity. }
  split; [reflexivity |]. split; [reflexivity |]. split; [reflexivity |].
  split; [exact Hvalue |]. exact (proj1 (Hflat _ Hvalue)).
Defined.

(** ** The recursion of the operators *)

Lemma mapFrom_ext {A B} (f g : A -> nat -> result B) l :
  forall i, (forall x j, f x j = g x j) -> mapFrom i f l = mapFrom i g l.
Proof.
  induction l as [| x l IH]; intros i H; simpl; [done |].
  rewrite H. destruct (g x i); simpl; [| done]. by rewrite (IH (S i)).
Qed.

Lemma mapMatrix_ext x f g :
  (forall cell, f cell = g cell) -> mapMatrix x f = mapMatrix x g.
Proof.
  intros H. unfold mapMatrix, arrayMap.
  rewrite (mapFrom_ext _ (fun row _ => mapFrom 0 (fun cell _ => g cell) row)); [done |].
  intros row _. by apply mapFrom_ext.
Qed.

Lemma dispatch_ext a b nn nm mn mm nn' nm' mn' mm' :
  agree nn nn' -> agree nm nm' -> agree mn mn' -> agree mm mm' ->
  dispatch a b nn nm mn mm = dispatch a b nn' nm' mn' mm'.
Proof.
  intros Hnn Hnm Hmn Hmm.
  destruct a as [a | a | ua va], b as [b | b | ub vb]; simpl; try done.
  - by destruct nn, nn'.
  - by destruct nm, nm'.
  - by destruct mn, mn'.
  - by destruct mm, mm'.
Qed.

Lemma handleCases_ext a b cu nn nm mn mm nn' nm' mn' mm' :
  agree nn nn' -> agree nm nm' -> agree mn mn' -> agree mm mm' ->
  handleCases a b cu nn nm mn mm = handleCases a b cu nn' nm' mn' mm'.
Proof.
  intros Hnn Hnm Hmn Hmm. unfold handleCases.
  generalize (unitDepth a + unitDepth b)%nat as k. intros k. revert a b.
  induction k as [| k IH]; intros a b; simpl.
  - destruct (isUnit a || isUnit b); [done |]. by apply dispatch_ext.
  - destruct (isUnit a || isUnit b); [| by apply dispatch_ext].
    by rewrite IH.
Qed.

(** What the operators do on two numbers, whatever the recursive call is. *)
Lemma plusBody_numbers self x y :
  plusBody self (Number x) (Number y) = Ok (Number (valueWrap (value x + value y))).
Proof. reflexivity. Qed.

Lemma multiplyBody_numbers self x y :
  multiplyBody self (Number x) (Number y) = Ok (Number (valueWrap (value x * value y))).
Proof. reflexivity. Qed.

Lemma divideBody_numbers self x y :
  divideBody self (Number x) (Number y) =
    if value y === 0 then Throw (Error "Equation resolve: cannot divide by 0")
    else Ok (Number (valueWrap (value x / value y))).
Proof. unfold divideBody. simpl. by destruct (value y === 0). Qed.

Lemma plusBody_ext f g a b :
  (forall x y, f (Number x) (Number y) = g (Number x) (Number y)) ->
  plusBody f a b = plusBody g a b.
Proof.
  intros H. unfold plusBody. apply handleCases_ext; simpl; try done.
  - intros x y. f_equal. apply mapMatrix_ext. intros cell. by rewrite H.
  - intros x y. f_equal. apply mapMatrix_ext. intros cell. by rewrite H.
  - intros x y. destruct (_ || _); [done |]. f_equal.
    apply mapFrom_ext. intros row i. apply mapFrom_ext. intros cell j.
    destruct (at_ (values y) i) as [bRow |]; simpl; [| done].
    destruct (at_ bRow j); simpl; [| done]. by rewrite H.
Qed.

Lemma multiplyBody_ext f g a b :
  (forall x y, f (Number x) (Number y) = g (Number x) (Number y)) ->
  multiplyBody f a b = multiplyBody g a b.
Proof.
  intros H. unfold multiplyBody. apply handleCases_ext; simpl; try done.
  - intros x y. f_equal. apply mapMatrix_ext. intros cell. by rewrite H.
  - intros x y. f_equal. apply mapMatrix_ext. intros cell. by rewrite H.
Qed.

Lemma divideBody_ext f g a b :
  (forall x y, f (Number x) (Number y) = g (Number x) (Number y)) ->
  divideBody f a b = divideBody g a b.
Proof.
  intros H. unfold divideBody. destruct (isNumberZero b); [done |].
  apply handleCases_ext; simpl; try done.
  - intros x y. f_equal. apply mapMatrix_ext. intros cell. by rewrite H.
  - intros x y. f_equal. apply mapMatrix_ext. intros cell. by rewrite H.
Qed.

(** The equations of the source: each operator in terms of itself. *)
Lemma plus_unfold a b : plus a b = plusBody plus a b.
Proof. apply plusBody_ext. intros x y. by rewrite !plusBody_numbers. Qed.

Lemma multiply_unfold a b : multiply a b = multiplyBody multiply a b.
Proof. apply multiplyBody_ext. intros x y. by rewrite !multiplyBody_numbers. Qed.

Lemma divide_unfold a b : divide a b = divideBody divide a b.
Proof. apply divideBody_ext. intros x y. by rewrite !divideBody_numbers. Qed.

(** More fuel changes nothing. *)
Lemma plusFuel_enough fuel a b : plusFuel (S (S fuel)) a b = plus a b.
Proof. apply plusBody_ext. intros x y. by rewrite !plusBody_numbers. Qed.

Lemma multiplyFuel_enough fuel a b : multiplyFuel (S (S fuel)) a b = multiply a b.
Proof. apply multiplyBody_ext. intros x y. by rewrite !multiplyBody_numbers. Qed.

Lemma divideFuel_enough fuel a b : divideFuel (S (S fuel)) a b = divide a b.
Proof. apply divideBody_ext. intros x y. by rewrite !divideBody_numbers. Qed.

Lemma plus_numbers x y :
  plus (Number x) (Number y) = Ok (Number (valueWrap (value x + value y))).
Proof. reflexivity. Qed.

Lemma multiply_numbers x y :
  multiply (Number x) (Number y) = Ok (Number (valueWrap (value x * value y))).
Proof. reflexivity. Qed.

Lemma divide_numbers x y :
  divide (Number x) (Number y) =
    if value y === 0 then Throw (Error "Equation resolve: cannot divide by 0")
    else Ok (Number (valueWrap (value x / value y))).
Proof. apply divideBody_numbers. Qed.

(** ** Addition and subtraction *)

Lemma isSameUnit_refl u : isSameUnit u u = true.
Proof. unfold isSameUnit. by apply bool_decide_eq_true. Qed.

Lemma plus_same_unit u x y :
  plus (Unit u (Number x)) (Unit u (Number y)) =
    Ok (if isEmptyUnit u then Number (valueWrap (value x + value y))
        else Unit u (Number (valueWrap (value x + value y)))).
Proof.
  rewrite plus_unfold. unfold plusBody. rewrite handleCases_unfold. simpl.
  rewrite isSameUnit_refl. simpl. by destruct (isEmptyUnit u).
Qed.

(** C2, as the code has it.  The difference of two numbers that carry the
    same unit lookup carries that lookup too: the units of a sum are the
    units of its left operand, no exponent is cancelled, and the [Unit]
    layer is dropped only when the lookup was empty to begin with.  So
    3[m] - 3[m] is 0[m]. *)
Theorem minus_same_unit_keeps_unit :
  (forall u x y,
     minus (Unit u (Number x)) (Unit u (Number y)) =
       Ok (if isEmptyUnit u then Number (valueWrap (value x + - value y))
           else Unit u (Number (valueWrap (value x + - value y)))))
  /\ minus (metres 3) (metres 3) = Ok (metres 0).
Proof.
  split.
  - intros u x y. unfold minus. simpl. apply plus_same_unit.
  - vm_compute. reflexivity.
Qed.

(** C2 as stated fails: 3[m] - 3[m] is not the bare number 0, nor any bare
    number. *)
Lemma minus_same_unit_not_bare :
  minus (metres 3) (metres 3) <> Ok (number 0)
  /\ ~ exists x, minus (metres 3) (metres 3) = Ok (Number x).
Proof.
  split.
  - vm_compute. discriminate.
  - intros [x H]. vm_compute in H. discriminate.
Qed.

(** ** Division *)

(** A traversal whose function throws one fixed exception on some cells. *)
Lemma mapFrom_guard {A B} (p : A -> bool) (e : exn) (g : A -> B) l : forall i,
  mapFrom i (fun x _ => if p x then Throw e else Ok (g x)) l =
    if existsb p l then Throw e else Ok (map g l).
Proof.
  induction l as [| x l IH]; intros i; simpl; [done |].
  destruct (p x); simpl; [done |]. rewrite IH. by destruct (existsb p l).
Qed.

Lemma mapMatrix_guard x (e : exn) (p : ResultTreeNumber -> bool) g :
  mapMatrix x (fun cell => if p cell then Throw e else Ok (g cell)) =
    if existsb (existsb p) (values x) then Throw e
    else Ok {| m := m x; n := n x; values := map (map g) (values x) |}.
Proof.
  unfold mapMatrix, arrayMap.
  rewrite (mapFrom_ext _ (fun row _ =>
             if existsb p row then Throw e else Ok (map g row))).
  - rewrite mapFrom_guard. by destruct (existsb _ _).
  - intros row _. apply mapFrom_guard.
Qed.

(** A number divided by a matrix: every cell is visited by [divide]. *)
Lemma divide_number_matrix a b :
  divide (Number a) (Matrix b) =
    if hasZeroCell b then Throw divisionByZero
    else Ok (Matrix {| m := m b; n := n b;
                       values := map (map (fun cell => valueWrap (value a / value cell)))
                                     (values b) |}).
Proof.
  rewrite divide_unfold. unfold divideBody. simpl.
  rewrite handleCases_unitless by done. simpl.
  rewrite (mapMatrix_ext _ _ (fun cell =>
             if isZeroCell cell then Throw divisionByZero
             else Ok (valueWrap (value a / value cell)))).
  - rewrite mapMatrix_guard. unfold hasZeroCell. by destruct (existsb _ _).
  - intros cell. rewrite divide_numbers. unfold isZeroCell.
    by destruct (value cell === 0).
Qed.

Lemma divide_by_number_zero a b :
  (value b === 0) = true -> divide a (Number b) = Throw divisionByZero.
Proof. intros H. rewrite divide_unfold. unfold divideBody. simpl. by rewrite H. Qed.

(** C3 fails on the code: the test for a zero divisor looks at a bare number
    only.  5 / 0[m] is not an exception but an infinite number of metres to
    the minus one.  The matrix [5] divided by the same 0[m] does throw: there
    [divide] is called again on the cell and the stripped divisor. *)
Theorem divide_by_zero_with_unit_returns :
  divide (number 5) (metres 0) = Ok (Unit {[ "m" := -1 ]} (number infinity))
  /\ divide (Matrix (matrix_1x1 5)) (metres 0)
       = Throw (Error "Equation resolve: cannot divide by 0").
Proof. split; vm_compute; reflexivity. Qed.

(** C4, as the code has it.  A number divided by a matrix with no zero cell
    is the matrix of the same shape whose cells are the number divided by
    the cell (not the cell divided by the number). *)
Theorem divide_number_by_matrix a b :
  hasZeroCell b = false ->
  divide (Number a) (Matrix b) =
    Ok (Matrix {| m := m b; n := n b;
                  values := map (map (fun cell => valueWrap (value a / value cell)))
                                (values b) |}).
Proof. intros H. by rewrite divide_number_matrix, H. Qed.

Lemma divide_number_by_matrix_witness :
  hasZeroCell (matrix_1x1 4) = false /\
  divide (number 2) (Matrix (matrix_1x1 4)) = Ok (Matrix (matrix_1x1 0.5)).
Proof.
  split; [reflexivity |]. apply (divide_number_by_matrix (valueWrap 2) (matrix_1x1 4)).
  reflexivity.
Defined.

(** C4 as stated fails: 2 divided by the 1x1 matrix [4] is [2/4], not [4/2]. *)
Lemma divide_number_by_matrix_not_cell_over_number :
  divide (number 2) (Matrix (matrix_1x1 4)) <>
    Ok (Matrix {| m := 1; n := 1;
                  values := map (map (fun cell => valueWrap (value cell / 2)))
                                (values (matrix_1x1 4)) |}).
Proof. vm_compute. intros [=]. Qed.

(** C10. A number divided by a matrix that has a cell equal to 0 (either
    zero) throws "cannot divide by 0": [divide] is called on every cell and
    tests it. *)
Theorem divide_number_by_matrix_zero_cell a b :
  hasZeroCell b = true ->
  divide (Number a) (Matrix b) = Throw (Error "Equation resolve: cannot divide by 0").
Proof. intros H. by rewrite divide_number_matrix, H. Qed.

Lemma divide_number_by_matrix_zero_cell_witness :
  hasZeroCell {| m := 1; n := 2; values := [[valueWrap 4; valueWrap (-0)]] |} = true /\
  divide (number 1) (Matrix {| m := 1; n := 2; values := [[valueWrap 4; valueWrap (-0)]] |})
    = Throw (Error "Equation resolve: cannot divide by 0").
Proof.
  split; [reflexivity |].
  apply (divide_number_by_matrix_zero_cell (valueWrap 1)). reflexivity.
Defined.

(** ** Unit algebra: what [mapUnit] and [mapUnits] compute and call *)

Lemma kept_Some newValue value :
  kept newValue = Some value -> (value !== 0) = true.
Proof. unfold kept. destruct (newValue !== 0) eqn:E; [| done]. by intros [= <-]. Qed.

Lemma calls_nil key : calls key [] = 0%nat.
Proof. reflexivity. Qed.

Lemma calls_snoc key log key' :
  calls key (log ++ [key']) = (calls key log + if decide (key' = key) then 1 else 0)%nat.
Proof.
  unfold calls. rewrite filter_app, length_app. f_equal.
  rewrite filter_cons, filter_nil. by destruct (decide (key' = key)).
Qed.

Section MapUnit.

Context (mapper : float -> string -> float).

Lemma mapUnitTraced_spec (x : UnitLookup) :
  (forall key, (mapUnitTraced x mapper).1 !! key
               = x !! key ≫= (fun value => kept (mapper value key)))
  /\ (forall key, calls key (mapUnitTraced x mapper).2
                  = if x !! key is Some _ then 1%nat else 0%nat).
Proof.
  unfold mapUnitTraced.
  apply (map_fold_weak_ind
           (fun (r : Traced UnitLookup) (x : UnitLookup) =>
              (forall key, r.1 !! key = x !! key ≫= (fun value => kept (mapper value key)))
              /\ (forall key, calls key r.2 = if x !! key is Some _ then 1%nat else 0%nat))).
  - split; intros key; by rewrite ?lookup_empty.
  - intros i v x' r Hi [IH1 IH2]. split; intros key; unfold mapUnitStep; simpl.
    + destruct (decide (i = key)) as [-> | Hne].
      * rewrite lookup_insert_eq. simpl. unfold kept.
        destruct (mapper v key !== 0).
        -- by rewrite lookup_insert_eq.
        -- by rewrite IH1, Hi.
      * rewrite (lookup_insert_ne x') by done. rewrite <- IH1.
        destruct (mapper v i !== 0); [| done]. by rewrite lookup_insert_ne.
    + rewrite calls_snoc, IH2.
      destruct (decide (i = key)) as [-> | Hne].
      * by rewrite Hi, lookup_insert_eq.
      * rewrite (lookup_insert_ne x') by done. destruct (x' !! key); lia.
Qed.

Lemma lookup_mapUnit (x : UnitLookup) key :
  mapUnit x mapper !! key = x !! key ≫= (fun value => kept (mapper value key)).
Proof. apply mapUnitTraced_spec. Qed.

End MapUnit.

Section MapUnits.

Context (a b : UnitLookup) (mapper : float -> float -> string -> float).

Local Abbreviation fromA := (firstLoop a b mapper).

Lemma mapUnitsTraced_spec :
  (forall key, (mapUnitsTraced a b mapper).1 !! key
               = match b !! key with
                 | Some value =>
                     if JS.truthyRead a key then fromA.1 !! key
                     else if mapper 0 value key !== 0 then Some (mapper 0 value key)
                          else fromA.1 !! key
                 | None => fromA.1 !! key
                 end)
  /\ (forall key, calls key (mapUnitsTraced a b mapper).2
                  = (calls key fromA.2
                     + match b !! key with
                       | Some _ => if JS.truthyRead a key then 0 else 1
                       | None => 0
                       end)%nat).
Proof.
  unfold mapUnitsTraced. fold (firstLoop a b mapper).
  apply (map_fold_weak_ind
           (fun (r : Traced UnitLookup) (b' : UnitLookup) =>
              (forall key, r.1 !! key
                           = match b' !! key with
                             | Some value =>
                                 if JS.truthyRead a key then fromA.1 !! key
                                 else if mapper 0 value key !== 0
                                      then Some (mapper 0 value key)
                                      else fromA.1 !! key
                             | None => fromA.1 !! key
                             end)
              /\ (forall key, calls key r.2
                              = (calls key fromA.2
                                 + match b' !! key with
                                   | Some _ => if JS.truthyRead a key then 0 else 1
                                   | None => 0
                                   end)%nat))).
  - split; intros key; rewrite lookup_empty; [done | lia].
  - intros i v b' r Hi [IH1 IH2]. split; intros key; unfold mapUnitsStep.
    + destruct (decide (i = key)) as [-> | Hne].
      * rewrite lookup_insert_eq.
        destruct (JS.truthyRead a key); [by rewrite IH1, Hi |]. simpl.
        destruct (mapper 0 v key !== 0).
        -- by rewrite lookup_insert_eq.
        -- by rewrite IH1, Hi.
      * rewrite (lookup_insert_ne b') by done. rewrite <- IH1.
        destruct (JS.truthyRead a i); [done |]. simpl.
        destruct (mapper 0 v i !== 0); [| done]. by rewrite lookup_insert_ne.
    + destruct (decide (i = key)) as [-> | Hne].
      * rewrite lookup_insert_eq.
        destruct (JS.truthyRead a key); [by rewrite IH2, Hi |]. simpl.
        rewrite calls_snoc, IH2, Hi. by destruct (decide (key = key)); [lia |].
      * rewrite (lookup_insert_ne b') by done. rewrite <- IH2.
        destruct (JS.truthyRead a i); [done |]. simpl.
        rewrite calls_snoc. destruct (decide (i = key)); [done | lia].
Qed.

Lemma lookup_mapUnits key :
  mapUnits a b mapper !! key
  = match a !! key, b !! key with
    | Some va, Some vb =>
        if JS.truthy va then kept (mapper va (JS.orZero (Some vb)) key)
        else if mapper 0 vb key !== 0 then Some (mapper 0 vb key)
             else kept (mapper va (JS.orZero (Some vb)) key)
    | Some va, None => kept (mapper va 0 key)
    | None, Some vb => if JS.inheritedName key then None else kept (mapper 0 vb key)
    | None, None => None
    end.
Proof.
  unfold mapUnits. rewrite (proj1 mapUnitsTraced_spec).
  unfold firstLoop. rewrite (proj1 (mapUnitTraced_spec _ a)).
  unfold JS.truthyRead.
  destruct (a !! key) as [va |], (b !! key) as [vb |]; try done.
Qed.

(** No entry of the result is a zero. *)
Lemma mapUnits_no_zero key value :
  mapUnits a b mapper !! key = Some value -> (value !== 0) = true.
Proof.
  rewrite lookup_mapUnits.
  destruct (a !! key) as [va |], (b !! key) as [vb |]; try done;
    try apply kept_Some.
  - destruct (JS.truthy va); [apply kept_Some |].
    destruct (mapper 0 vb key !== 0) eqn:E; [by intros [= <-] | apply kept_Some].
  - destruct (JS.inheritedName key); [done | apply kept_Some].
Qed.

(** How often the mapper is called at a key. *)
Lemma mapUnits_calls key :
  calls key (mapUnitsTraced a b mapper).2
  = match a !! key, b !! key with
    | Some va, Some _ => if JS.truthy va then 1%nat else 2%nat
    | Some _, None => 1%nat
    | None, Some _ => if JS.inheritedName key then 0%nat else 1%nat
    | None, None => 0%nat
    end.
Proof.
  rewrite (proj2 mapUnitsTraced_spec). unfold firstLoop.
  rewrite (proj2 (mapUnitTraced_spec _ a)). unfold JS.truthyRead.
  destruct (a !! key) as [va |], (b !! key) as [vb |]; simpl; try done.
  by destruct (JS.truthy va).
Qed.

End MapUnits.

Lemma mapUnits_each_key_once a b mapper :
  truthyExponents a -> plainKeys a -> plainKeys b ->
  forall key, is_Some (a !! key) \/ is_Some (b !! key) ->
    calls key (mapUnitsTraced a b mapper).2 = 1%nat.
Proof.
  intros Ha _ Pb key Hkey. rewrite mapUnits_calls.
  destruct (a !! key) as [va |] eqn:Ea, (b !! key) as [vb |] eqn:Eb; try done.
  - by rewrite (Ha _ _ Ea).
  - rewrite Pb; [done | by rewrite Eb].
  - destruct Hkey as [[? [=]] | [? [=]]].
Qed.

(** C9 fails on the code.  The second loop of [mapUnits] skips a key of b
    when [a[key]] is truthy, not when the key is in a.  NaN is a non-zero
    exponent and is falsy: with a = {m: NaN} and b = {m: 1}, both without a
    zero exponent, the mapper is called twice at "m", and the entry that the
    first loop wrote (NaN + 1) is overwritten by the second (0 + 1). *)
Theorem mapUnits_NaN_exponent_visited_twice :
  let a : UnitLookup := {[ "m" := nan ]} in
  let b : UnitLookup := {[ "m" := 1 ]} in
  let mapper := fun unit1 unit2 (_ : string) => unit1 + unit2 in
  (forall key value, a !! key = Some value -> (value !== 0) = true)
  /\ (forall key value, b !! key = Some value -> (value !== 0) = true)
  /\ calls "m" (mapUnitsTraced a b mapper).2 = 2%nat
  /\ mapUnits a b mapper = {[ "m" := 1 ]}
  /\ mapper nan 1 "m" = nan.
Proof.
  intros a b mapper. split; [| split; [| split; [| split]]].
  - intros key value. subst a. destruct (decide (key = "m")) as [-> | Hne].
    + rewrite lookup_singleton_eq. by intros [= <-].
    + by rewrite lookup_singleton_ne.
  - intros key value. subst b. destruct (decide (key = "m")) as [-> | Hne].
    + rewrite lookup_singleton_eq. by intros [= <-].
    + by rewrite lookup_singleton_ne.
  - vm_compute. reflexivity.
  - vm_compute. reflexivity.
  - reflexivity.
Qed.

(** ** Implied multiplication *)

Lemma multiplyImplied_columns a b :
  n a = 1%nat -> n b = 1%nat ->
  multiplyImplied (Matrix a) (Matrix b) = Throw impliedScalarProduct.
Proof. intros Ha Hb. unfold multiplyImplied. by rewrite Ha, Hb. Qed.

Lemma multiplyImplied_otherwise a b :
  (forall ma mb, a = Matrix ma -> b = Matrix mb -> ~ (n ma = 1%nat /\ n mb = 1%nat)) ->
  multiplyImplied a b = multiply a b.
Proof.
  intros H. destruct a as [a | a | ua va], b as [b | b | ub vb]; try done.
  unfold multiplyImplied.
  destruct (n a =? 1)%nat eqn:Ea, (n b =? 1)%nat eqn:Eb; try done.
  apply Nat.eqb_eq in Ea, Eb. by destruct (H a b).
Qed.

(** C5 fails on the code: [multiplyImplied] tests the operands themselves,
    and an operand that is a unit is not a matrix.  The implied product of
    two column vectors in metres is their scalar product, in square metres. *)
Theorem multiplyImplied_columns_with_unit_returns :
  multiplyImplied (Unit {[ "m" := 1 ]} (Matrix (column [1; 2; 3])))
                  (Unit {[ "m" := 1 ]} (Matrix (column [4; 5; 6])))
  = Ok (Unit {[ "m" := 2 ]} (number 32)).
Proof. vm_compute. reflexivity. Qed.

(** ** Power *)

Lemma existsb_never {A} (l : list A) : existsb (fun _ => false) l = false.
Proof. by induction l. Qed.

Lemma mapMatrix_total x g :
  mapMatrix x (fun cell => Ok (g cell)) =
    Ok {| m := m x; n := n x; values := map (map g) (values x) |}.
Proof.
  pose proof (mapMatrix_guard x Unmodelled (fun _ => false) g) as H.
  rewrite H. clear H.
  assert (existsb (existsb (fun _ : ResultTreeNumber => false)) (values x) = false) as ->;
    [| done].
  induction (values x) as [| row rows IH]; simpl; [done |].
  by rewrite existsb_never.
Qed.

(** [power] on a flat operand with units and a number as exponent. *)
Lemma power_unit Math_pow units payload b :
  isUnit payload = false ->
  power Math_pow (Unit units payload) (Number b) =
    let scaled := mapUnit units (fun factor _ => factor * value b) in
    result ← match payload with
             | Number a => Ok (number (Math_pow (value a) (value b)))
             | Matrix a => Ok (Matrix (cellsToThe Math_pow a (value b)))
             | Unit _ _ => Throw Unmodelled
             end;
    Ok (if isEmptyUnit scaled then result else Unit scaled result).
Proof.
  intros Hp. unfold power. cbn [isUnit]. rewrite handleCases_unfold.
  cbn [isUnit orb getUnit getUnitless]. rewrite handleCases_unitless by done.
  destruct payload as [a | a | ua va]; [| | done].
  - cbn [dispatch mbind result_bind]. by destruct (isEmptyUnit _).
  - cbn [dispatch]. rewrite mapMatrix_total.
    cbn [fmap result_fmap mbind result_bind]. fold (cellsToThe Math_pow a (value b)).
    by destruct (isEmptyUnit _).
Qed.



(** ** Products of matrices *)

Lemma at_nth {A} (l : list A) i d : (i < length l)%nat -> at_ l i = Ok (nth i l d).
Proof.
  intros H. unfold at_. destruct (l !! i) as [x |] eqn:E.
  - by rewrite (nth_lookup_Some _ _ d _ E).
  - apply lookup_ge_None in E. lia.
Qed.

Lemma shaped_row x i :
  shaped x -> (i < m x)%nat -> length (nth i (values x) []) = n x.
Proof.
  intros [Hm Hn] Hi. rewrite Forall_forall in Hn. apply Hn.
  apply list_elem_of_In, nth_In. lia.
Qed.

Lemma reduceFrom_total {A} (f : float -> A -> nat -> result float)
    (g : float -> nat -> float) (l : list A) : forall i current,
  (forall j x acc, l !! j = Some x -> f acc x (i + j)%nat = Ok (g acc (i + j)%nat)) ->
  reduceFrom i f current l = Ok (fold_left g (seq i (length l)) current).
Proof.
  induction l as [| x l IH]; intros i current H; simpl; [done |].
  specialize (H 0%nat x current eq_refl) as H0. rewrite Nat.add_0_r in H0.
  rewrite H0. simpl. apply IH. intros j y acc Hj.
  replace (S i + j)%nat with (i + S j)%nat by lia. by apply H.
Qed.

Lemma mapFrom_total {A B} (f : A -> nat -> result B) (g : nat -> B) (l : list A) :
  forall i,
  (forall j x, l !! j = Some x -> f x (i + j)%nat = Ok (g (i + j)%nat)) ->
  mapFrom i f l = Ok (map g (seq i (length l))).
Proof.
  induction l as [| x l IH]; intros i H; simpl; [done |].
  specialize (H 0%nat x eq_refl) as H0. rewrite Nat.add_0_r in H0.
  rewrite H0. simpl. rewrite (IH (S i)); [done |]. intros j y Hj.
  replace (S i + j)%nat with (i + S j)%nat by lia. by apply H.
Qed.

Lemma lookup_row x i row :
  values x !! i = Some row -> shaped x ->
  (i < m x)%nat /\ row = nth i (values x) [] /\ length row = n x.
Proof.
  intros Hrow Hx. pose proof (lookup_lt_Some _ _ _ Hrow) as Hlt.
  destruct Hx as [Hm Hn]. rewrite Hm in Hlt. split; [done |].
  assert (row = nth i (values x) []) as ->.
  { symmetry. by apply nth_lookup_Some. }
  split; [done |]. apply shaped_row; [by split | done].
Qed.

Lemma scalarProduct_balanced a b :
  shaped a -> shaped b -> n a = 1%nat -> n b = 1%nat -> m a = m b ->
  scalarProduct a b = Ok (valueWrap (dotProduct a b)).
Proof.
  intros Ha Hb Hna Hnb Hm. unfold scalarProduct.
  rewrite Hm, Nat.eqb_refl. simpl. unfold arrayReduce.
  rewrite (reduceFrom_total _ (fun current i => current + cell a i 0 * cell b i 0)).
  - simpl. unfold dotProduct, sumOfProducts. by rewrite (proj1 Ha).
  - intros i row acc Hrow. simpl.
    destruct (lookup_row _ _ _ Hrow Ha) as (Hi & -> & Hlen).
    rewrite (at_nth _ 0 (valueWrap 0)) by lia. simpl.
    rewrite (at_nth (values b) i []) by (rewrite (proj1 Hb); lia). simpl.
    rewrite (at_nth _ 0 (valueWrap 0)); [done |].
    rewrite shaped_row; [lia | done | lia].
Qed.

Lemma matrixProduct_fitting a b :
  wellFormed a -> wellFormed b -> n a = m b ->
  matrixProduct a b = Ok {| m := m a; n := n b; values := productValues a b |}.
Proof.
  intros (_ & _ & Ha) (Hmb & _ & Hb) Hn. unfold matrixProduct.
  rewrite Hn, Nat.eqb_refl. simpl. unfold arrayMap.
  rewrite (mapFrom_total _
             (fun i => map (fun j => valueWrap (innerProduct a b i j)) (seq 0 (n b)))).
  - simpl. unfold productValues. by rewrite (proj1 Ha).
  - intros i row Hrow. simpl.
    destruct (lookup_row _ _ _ Hrow Ha) as (Hi & -> & Hlen).
    rewrite (at_nth (values b) 0 []) by (rewrite (proj1 Hb); lia). simpl.
    rewrite (mapFrom_total _ (fun j => valueWrap (innerProduct a b i j))).
    + by rewrite shaped_row by (done || lia).
    + intros j c Hc. simpl.
      pose proof (lookup_lt_Some _ _ _ Hc) as Hj.
      rewrite shaped_row in Hj by (done || lia).
      rewrite (at_nth (values a) i []) by (rewrite (proj1 Ha); lia). simpl.
      unfold arrayReduce.
      rewrite (reduceFrom_total _ (fun current k => current + cell a i k * cell b k j)).
      * simpl. unfold innerProduct, sumOfProducts. by rewrite Hlen.
      * intros k x acc Hk. simpl.
        pose proof (lookup_lt_Some _ _ _ Hk) as Hklt. rewrite Hlen in Hklt.
        rewrite (at_nth (values b) k []) by (rewrite (proj1 Hb); lia). simpl.
        rewrite (at_nth _ j (valueWrap 0)) by (rewrite shaped_row; [lia | done | lia]).
        simpl. unfold cell. by rewrite (nth_lookup_Some _ _ (valueWrap 0) _ Hk).
Qed.

Lemma productValues_shaped a b :
  shaped {| m := m a; n := n b; values := productValues a b |}.
Proof.
  unfold shaped, productValues. simpl. split.
  - by rewrite length_map, length_seq.
  - apply Forall_forall. intros row (i & -> & _)%list_elem_of_fmap.
    by rewrite length_map, length_seq.
Qed.

Lemma productValues_cell a b i j :
  (i < m a)%nat -> (j < n b)%nat ->
  cell {| m := m a; n := n b; values := productValues a b |} i j = innerProduct a b i j.
Proof.
  intros Hi Hj. unfold cell, productValues. simpl.
  rewrite (nth_indep _ [] (map (fun j => valueWrap (innerProduct a b 0 j)) (seq 0 (n b))))
    by (by rewrite length_map, length_seq).
  rewrite (map_nth (fun i => map (fun j => valueWrap (innerProduct a b i j)) (seq 0 (n b)))
             (seq 0 (m a)) 0%nat i).
  rewrite seq_nth by done. simpl.
  rewrite (nth_indep _ (valueWrap 0) (valueWrap (innerProduct a b i 0)))
    by (by rewrite length_map, length_seq).
  rewrite (map_nth (fun j => valueWrap (innerProduct a b i j)) (seq 0 (n b)) 0%nat j).
  by rewrite seq_nth.
Qed.

Lemma multiply_matrices a b :
  multiply (Matrix a) (Matrix b) =
    if (n a =? 1)%nat && (n b =? 1)%nat
    then Number <$> scalarProduct a b
    else Matrix <$> matrixProduct a b.
Proof. reflexivity. Qed.

(** C6. [multiply] on two unitless matrices of the data model.  When both
    have one column: the number that is the sum of the pairwise products of
    their cells if they have as many rows, and the exception "scalar product
    requires balanced vectors" if not.  Otherwise: the matrix with the rows
    of the left and the columns of the right operand whose cells are the
    inner products of a row and a column if the left has as many columns as
    the right has rows, and the exception "cannot multiply ... matrix with
    ... matrix" if not. *)
Theorem multiply_unitless_matrices a b :
  wellFormed a -> wellFormed b ->
  (n a = 1%nat -> n b = 1%nat -> m a = m b ->
     multiply (Matrix a) (Matrix b) = Ok (number (dotProduct a b)))
  /\ (n a = 1%nat -> n b = 1%nat -> m a <> m b ->
        multiply (Matrix a) (Matrix b)
          = Throw (Error "Equation resolve: scalar product requires balanced vectors"))
  /\ (~ (n a = 1%nat /\ n b = 1%nat) -> n a = m b ->
        exists c,
          multiply (Matrix a) (Matrix b) = Ok (Matrix c)
          /\ m c = m a /\ n c = n b /\ shaped c
          /\ forall i j, (i < m a)%nat -> (j < n b)%nat ->
               cell c i j = innerProduct a b i j)
  /\ (~ (n a = 1%nat /\ n b = 1%nat) -> n a <> m b ->
        multiply (Matrix a) (Matrix b)
          = Throw (Error ("Equation resolve: cannot multiply " +:+ dims a
                            +:+ " matrix with " +:+ dims b +:+ " matrix"))).
Proof.
  intros Ha Hb. rewrite multiply_matrices.
  split; [| split; [| split]].
  - intros Hna Hnb Hm. rewrite Hna, Hnb. simpl.
    rewrite scalarProduct_balanced; [done | apply Ha | apply Hb | done..].
  - intros Hna Hnb Hm. rewrite Hna, Hnb. simpl. unfold scalarProduct.
    apply Nat.eqb_neq in Hm. by rewrite Hm.
  - intros Hcol Hn.
    exists {| m := m a; n := n b; values := productValues a b |}.
    assert ((n a =? 1)%nat && (n b =? 1)%nat = false) as ->.
    { apply andb_false_iff.
      destruct (Nat.eqb_spec (n a) 1), (Nat.eqb_spec (n b) 1); tauto. }
    rewrite matrixProduct_fitting by done.
    split; [done |]. split; [done |]. split; [done |].
    split; [apply productValues_shaped |]. apply productValues_cell.
  - intros Hcol Hn.
    assert ((n a =? 1)%nat && (n b =? 1)%nat = false) as ->.
    { apply andb_false_iff.
      destruct (Nat.eqb_spec (n a) 1), (Nat.eqb_spec (n b) 1); tauto. }
    unfold matrixProduct. apply Nat.eqb_neq in Hn. by rewrite Hn.
Qed.

Lemma column_wellFormed cells : (1 <= length cells)%nat -> wellFormed (column cells).
Proof.
  intros H. unfold wellFormed, shaped, column. simpl.
  split; [done |]. split; [done |]. split.
  - by rewrite length_map.
  - apply Forall_forall. by intros row (x & -> & _)%list_elem_of_fmap.
Qed.

(** The columns (1, 2, 3) and (4, 5, 6) have the scalar product 32. *)
Lemma multiply_unitless_matrices_witness :
  wellFormed (column [1; 2; 3]) /\ wellFormed (column [4; 5; 6]) /\
  multiply (Matrix (column [1; 2; 3])) (Matrix (column [4; 5; 6])) = Ok (number 32).
Proof.
  assert (Ha : wellFormed (column [1; 2; 3])) by (apply column_wellFormed; simpl; lia).
  assert (Hb : wellFormed (column [4; 5; 6])) by (apply column_wellFormed; simpl; lia).
  split; [done |]. split; [done |].
  destruct (multiply_unitless_matrices _ _ Ha Hb) as [Hdot _].
  rewrite Hdot by reflexivity. reflexivity.
Defined.

(** ** Arithmetic of JavaScript numbers *)

Section Binary64.

Import SpecFloat.

Lemma SFadd_comm x y : SFadd prec emax x y = SFadd prec emax y x.
Proof.
  destruct x as [sx | sx | | sx mx ex], y as [sy | sy | | sy my ey]; simpl; try done.
  - by destruct sx, sy.
  - by destruct sx, sy.
  - by rewrite (Z.min_comm ex ey), Z.add_comm.
Qed.

Lemma SFmul_comm x y : SFmul prec emax x y = SFmul prec emax y x.
Proof.
  destruct x as [sx | sx | | sx mx ex], y as [sy | sy | | sy my ey]; simpl;
    try done; try by rewrite (xorb_comm sx sy).
  by rewrite (xorb_comm sx sy), (Pos.mul_comm mx my), (Z.add_comm ex ey).
Qed.

Lemma number_add_comm (x y : float) : x + y = y + x.
Proof. apply Prim2SF_inj. rewrite !FloatAxioms.add_spec. apply SFadd_comm. Qed.

Lemma number_mul_comm (x y : float) : x * y = y * x.
Proof. apply Prim2SF_inj. rewrite !FloatAxioms.mul_spec. apply SFmul_comm. Qed.

Lemma SFeqb_refl x : SFeqb x x = match x with S754_nan => false | _ => true end.
Proof.
  unfold SFeqb, SFcompare. destruct x as [s | s | | s mx ex]; try done.
  - by destruct s.
  - rewrite Z.compare_refl, Pos.compare_cont_refl. by destruct s.
Qed.

Lemma strictEq_zero x :
  (x === 0) = match Prim2SF x with S754_zero _ => true | _ => false end.
Proof.
  unfold JS.strictEq. rewrite FloatAxioms.eqb_spec.
  change (Prim2SF 0) with (S754_zero false).
  unfold SFeqb. destruct (Prim2SF x) as [s | s | | s mx ex]; simpl; try done.
  - by destruct s.
  - by destruct s.
Qed.

Lemma truthy_spec x :
  JS.truthy x = match Prim2SF x with
                | S754_zero _ | S754_nan => false
                | _ => true
                end.
Proof.
  unfold JS.truthy, is_zero, is_nan. fold (JS.strictEq x zero).
  change zero with 0. rewrite strictEq_zero, FloatAxioms.eqb_spec, SFeqb_refl.
  by destruct (Prim2SF x).
Qed.

(** 0 + x is not a zero when x is truthy. *)
Lemma zero_plus_truthy x : JS.truthy x = true -> (0 + x !== 0) = true.
Proof.
  rewrite truthy_spec. unfold JS.strictNe. rewrite strictEq_zero, FloatAxioms.add_spec.
  change (Prim2SF 0) with (S754_zero false).
  by destruct (Prim2SF x).
Qed.

(** 0 + x is a zero or NaN when x is falsy. *)
Lemma zero_plus_falsy x :
  JS.truthy x = false -> (0 + x !== 0) = true -> 0 + x = nan.
Proof.
  rewrite truthy_spec. unfold JS.strictNe. rewrite strictEq_zero.
  intros Hx Hnz. apply Prim2SF_inj. revert Hnz. rewrite FloatAxioms.add_spec.
  change (Prim2SF 0) with (S754_zero false). change (Prim2SF nan) with S754_nan.
  destruct (Prim2SF x) as [s | s | | s mx ex]; simpl; try done.
  by destruct s.
Qed.

End Binary64.

(** ** Commutativity on scalars *)

Lemma kept_zero_plus_truthy x : JS.truthy x = true -> kept (0 + x) = Some (0 + x).
Proof. intros H. unfold kept. by rewrite zero_plus_truthy. Qed.

Lemma plainKeys_singleton key value :
  JS.inheritedName key = false -> plainKeys {[ key := value ]}.
Proof.
  intros H k [v Hk]. destruct (decide (k = key)) as [-> | Hne]; [done |].
  by rewrite lookup_singleton_ne in Hk.
Qed.

(** Adding exponents does not depend on the order of the lookups, whatever
    the exponents are, when no unit has the name of an inherited member. *)
Lemma mapUnits_add_comm (a b : UnitLookup) :
  plainKeys a -> plainKeys b ->
  mapUnits a b addExponents = mapUnits b a addExponents.
Proof.
  intros Pa Pb.
  apply map_eq. intros key. rewrite !lookup_mapUnits. unfold addExponents.
  destruct (a !! key) as [va |] eqn:Ka, (b !! key) as [vb |] eqn:Kb; simpl;
    try done; rewrite ?Pa, ?Pb by (by rewrite ?Ka, ?Kb).
  - destruct (JS.truthy va) eqn:Ta, (JS.truthy vb) eqn:Tb.
    + by rewrite number_add_comm.
    + rewrite (number_add_comm va 0), zero_plus_truthy by done.
      by apply kept_zero_plus_truthy.
    + rewrite (number_add_comm vb 0), zero_plus_truthy by done.
      symmetry. by apply kept_zero_plus_truthy.
    + rewrite (number_add_comm va 0), (number_add_comm vb 0). unfold kept.
      destruct (0 + vb !== 0) eqn:Eb, (0 + va !== 0) eqn:Ea; try done.
      by rewrite (zero_plus_falsy va), (zero_plus_falsy vb).
  - by rewrite number_add_comm.
  - by rewrite number_add_comm.
Qed.

Lemma isSameUnit_sym a b : isSameUnit a b = isSameUnit b a.
Proof. unfold isSameUnit. apply bool_decide_ext. split; congruence. Qed.

Lemma isSameUnit_eq a b : isSameUnit a b = true -> a = b.
Proof. apply bool_decide_eq_true. Qed.

(** [handleCases] on two scalars: the payloads go to the number, number
    combinator. *)
Lemma handleCases_scalars a b cu f nm mn mm :
  isScalar a = true -> isScalar b = true ->
  exists x y,
    getUnitless a = Number x /\ getUnitless b = Number y /\
    handleCases a b cu (Some f) nm mn mm =
      if isUnit a || isUnit b then
        units ← cu (getUnit a) (getUnit b);
        result ← f x y;
        if isEmptyUnit units then Ok result else Ok (Unit units result)
      else f x y.
Proof.
  intros Ha Hb.
  destruct a as [x | | ua [x | |]]; try done;
    destruct b as [y | | ub [y | |]]; try done;
    exists x, y; (split; [done |]); (split; [done |]);
    rewrite handleCases_unfold; simpl; try done;
    by rewrite handleCases_unitless.
Qed.

(** C8 fails on the code, by the defect of C9: the second loop of
    [mapUnits] takes a truthy read [a[key]] for "the key is in a".  For the
    unit name constructor the read finds the member that every object
    inherits, so 3[m] * 4[constructor] is 12[m]: the unit of the right
    operand is lost.  In the other order its key stays in the result (the
    source stores under it the sum of its exponent and the inherited member,
    which is no number), so the two products differ. *)
Theorem multiply_unit_named_constructor :
  isScalar (metres 3) = true /\ isScalar (constructors 4) = true
  /\ multiply (metres 3) (constructors 4) = Ok (metres 12)
  /\ (forall units payload,
        multiply (constructors 4) (metres 3) = Ok (Unit units payload) ->
        is_Some (units !! "constructor"))
  /\ multiply (metres 3) (constructors 4) <> multiply (constructors 4) (metres 3).
Proof.
  split; [reflexivity |]. split; [reflexivity |].
  split; [vm_compute; reflexivity |]. split.
  - intros units payload H. vm_compute in H. injection H as <- _.
    by eexists.
  - vm_compute. discriminate.
Qed.

(** On numbers, bare or with units none of which has the name of a member
    of [Object.prototype], [plus] and [multiply] do not depend on the order
    of the operands: the same value or the same exception either way. *)
Theorem plus_multiply_comm_plain a b :
  isScalar a = true -> isScalar b = true ->
  plainKeys (getUnit a) -> plainKeys (getUnit b) ->
  plus a b = plus b a /\ multiply a b = multiply b a.
Proof.
  intros Ha Hb Pa Pb. split.
  - rewrite (plus_unfold a b), (plus_unfold b a). unfold plusBody.
    edestruct (handleCases_scalars a b) as (x & y & Hx & Hy & ->); [done.. |].
    edestruct (handleCases_scalars b a) as (y' & x' & Hy' & Hx' & ->); [done.. |].
    rewrite Hx in Hx'. rewrite Hy in Hy'. injection Hx' as <-. injection Hy' as <-.
    rewrite (orb_comm (isUnit b)), (number_add_comm (value y)).
    destruct (isUnit a || isUnit b); [| done].
    rewrite (isSameUnit_sym (getUnit b)).
    destruct (isSameUnit (getUnit a) (getUnit b)) eqn:E; [| done].
    by rewrite (isSameUnit_eq _ _ E).
  - rewrite (multiply_unfold a b), (multiply_unfold b a). unfold multiplyBody.
    edestruct (handleCases_scalars a b) as (x & y & Hx & Hy & ->); [done.. |].
    edestruct (handleCases_scalars b a) as (y' & x' & Hy' & Hx' & ->); [done.. |].
    rewrite Hx in Hx'. rewrite Hy in Hy'. injection Hx' as <-. injection Hy' as <-.
    rewrite (orb_comm (isUnit b)), (number_mul_comm (value y)).
    destruct (isUnit a || isUnit b); [| done].
    fold addExponents. by rewrite (mapUnits_add_comm (getUnit b)).
Qed.

(** 3[m] + 4[m] is 4[m] + 3[m], and 3[m] * 4[s] is 4[s] * 3[m]. *)
Lemma plus_multiply_comm_plain_witness :
  isScalar (metres 3) = true /\ isScalar (seconds 4) = true /\
  plainKeys (getUnit (metres 3)) /\ plainKeys (getUnit (seconds 4)) /\
  plus (metres 3) (metres 4) = plus (metres 4) (metres 3) /\
  multiply (metres 3) (seconds 4) = multiply (seconds 4) (metres 3).
Proof.
  assert (Pm : plainKeys (getUnit (metres 3))) by by apply plainKeys_singleton.
  assert (Ps : plainKeys (getUnit (seconds 4))) by by apply plainKeys_singleton.
  split; [reflexivity |]. split; [reflexivity |]. split; [done |]. split; [done |].
  split.
  - by apply (plus_multiply_comm_plain (metres 3) (metres 4)).
  - by apply (plus_multiply_comm_plain (metres 3) (seconds 4)).
Defined.

(** ** No operator leaves the embedding *)

Lemma modelled_bind {A B} (r : result A) (f : A -> result B) :
  modelled r -> (forall x, r = Ok x -> modelled (f x)) -> modelled (r ≫= f).
Proof. destruct r as [x | e]; simpl; [by auto | by intros H _ [= ->]]. Qed.

Lemma modelled_fmap {A B} (g : A -> B) (r : result A) : modelled r -> modelled (g <$> r).
Proof. destruct r as [x | e]; [done | by intros H [= ->]]. Qed.

Lemma mapFrom_modelled {A B} (f : A -> nat -> result B) l : forall i,
  (forall x j, modelled (f x j)) -> modelled (mapFrom i f l).
Proof.
  induction l as [| x l IH]; intros i H; simpl; [done |].
  apply modelled_bind; [done |]. intros y _.
  apply modelled_bind; [by apply IH | done].
Qed.

Lemma reduceFrom_modelled {A B} (f : B -> A -> nat -> result B) l : forall i current,
  (forall acc x j, modelled (f acc x j)) -> modelled (reduceFrom i f current l).
Proof.
  induction l as [| x l IH]; intros i current H; simpl; [done |].
  apply modelled_bind; [done |]. intros next _. by apply IH.
Qed.

Lemma mapMatrix_modelled x f :
  (forall c, modelled (f c)) -> modelled (mapMatrix x f).
Proof.
  intros H. unfold mapMatrix. apply modelled_bind; [| done].
  apply mapFrom_modelled. intros row _. by apply mapFrom_modelled.
Qed.

Lemma at_modelled {A} (l : list A) i : modelled (at_ l i).
Proof. unfold at_. by destruct (l !! i). Qed.

Lemma dispatch_modelled a b nn nm mn mm :
  modelledCombinator nn -> modelledCombinator nm ->
  modelledCombinator mn -> modelledCombinator mm ->
  modelled (dispatch a b nn nm mn mm).
Proof.
  intros Hnn Hnm Hmn Hmm.
  destruct a as [a | a | ua va], b as [b | b | ub vb]; simpl; try done.
  - destruct nn as [f |] eqn:E; [by eapply Hnn | done].
  - destruct nm as [f |] eqn:E; [by eapply Hnm | done].
  - destruct mn as [f |] eqn:E; [by eapply Hmn | done].
  - destruct mm as [f |] eqn:E; [by eapply Hmm | done].
Qed.

Lemma handleCases_modelled a b cu nn nm mn mm :
  (forall ua ub, modelled (cu ua ub)) ->
  modelledCombinator nn -> modelledCombinator nm ->
  modelledCombinator mn -> modelledCombinator mm ->
  modelled (handleCases a b cu nn nm mn mm).
Proof.
  intros Hcu Hnn Hnm Hmn Hmm.
  remember (unitDepth a + unitDepth b)%nat as k eqn:Ek.
  revert a b Ek. induction (lt_wf k) as [k _ IH]. intros a b ->.
  rewrite handleCases_unfold.
  destruct (isUnit a || isUnit b) eqn:E; [| by apply dispatch_modelled].
  apply modelled_bind; [done |]. intros units _.
  apply modelled_bind.
  - eapply IH; [| done]. by apply unitDepth_stripped.
  - intros result _. by destruct (isEmptyUnit units).
Qed.

Lemma asNumber_modelled x : modelled (asNumber (Ok (Number x))).
Proof. done. Qed.

Theorem plus_modelled a b : modelled (plus a b).
Proof.
  rewrite plus_unfold. unfold plusBody. apply handleCases_modelled.
  - intros ua ub. by destruct (negb (isSameUnit ua ub)).
  - by intros g x y [= <-].
  - intros g x y [= <-]. apply modelled_fmap, mapMatrix_modelled. by intros c.
  - intros g x y [= <-]. apply modelled_fmap, mapMatrix_modelled. by intros c.
  - intros g x y [= <-]. destruct (_ || _); [done |].
    apply modelled_bind; [| done]. apply mapFrom_modelled. intros row i.
    apply mapFrom_modelled. intros c j.
    apply modelled_bind; [apply at_modelled |]. intros bRow _.
    apply modelled_bind; [apply at_modelled | done].
Qed.

Lemma scalarProduct_modelled a b : modelled (scalarProduct a b).
Proof.
  unfold scalarProduct. destruct (negb _); [done |].
  apply modelled_bind; [| done]. apply reduceFrom_modelled. intros acc row i.
  apply modelled_bind; [apply at_modelled |]. intros x _.
  apply modelled_bind; [apply at_modelled |]. intros bRow _.
  apply modelled_bind; [apply at_modelled | done].
Qed.

Lemma matrixProduct_modelled a b : modelled (matrixProduct a b).
Proof.
  unfold matrixProduct. destruct (negb _); [done |].
  apply modelled_bind; [| done]. apply mapFrom_modelled. intros row aRow.
  apply modelled_bind; [apply at_modelled |]. intros bFirst _.
  apply mapFrom_modelled. intros c bCol.
  apply modelled_bind; [apply at_modelled |]. intros aCells _.
  apply modelled_bind; [| done]. apply reduceFrom_modelled. intros acc x i.
  apply modelled_bind; [apply at_modelled |]. intros bRow _.
  apply modelled_bind; [apply at_modelled | done].
Qed.

Theorem multiply_modelled a b : modelled (multiply a b).
Proof.
  rewrite multiply_unfold. unfold multiplyBody. apply handleCases_modelled.
  - done.
  - by intros g x y [= <-].
  - intros g x y [= <-]. apply modelled_fmap, mapMatrix_modelled. by intros c.
  - intros g x y [= <-]. apply modelled_fmap, mapMatrix_modelled. by intros c.
  - intros g x y [= <-]. destruct (_ && _).
    + apply modelled_fmap, scalarProduct_modelled.
    + apply modelled_fmap, matrixProduct_modelled.
Qed.

Theorem divide_modelled a b : modelled (divide a b).
Proof.
  rewrite divide_unfold. unfold divideBody. destruct (isNumberZero b); [done |].
  apply handleCases_modelled.
  - done.
  - by intros g x y [= <-].
  - intros g x y [= <-]. apply modelled_fmap, mapMatrix_modelled. intros c.
    rewrite divide_numbers. by destruct (value c === 0).
  - intros g x y [= <-]. apply modelled_fmap, mapMatrix_modelled. intros c.
    rewrite divide_numbers. by destruct (value y === 0).
  - by intros g x y [=].
Qed.

Theorem power_modelled Math_pow a b : modelled (power Math_pow a b).
Proof.
  unfold power. destruct (isUnit b); [done |].
  destruct b as [b | b | ub vb]; try done.
  apply handleCases_modelled.
  - done.
  - by intros g x y [= <-].
  - by intros g x y [=].
  - intros g x y [= <-]. apply modelled_fmap, mapMatrix_modelled. by intros c.
  - by intros g x y [=].
Qed.

(** * Further properties of the operators *)

(** ** Units and payloads are handled apart *)

Lemma withUnits_Ok units (result : ResultTree) :
  (if isEmptyUnit units then Ok result else Ok (Unit units result))
  = Ok (withUnits units result).
Proof. unfold withUnits. by destruct (isEmptyUnit units). Qed.



(** [plus] on operands of which one is a unit: "cannot add different units"
    when the lookups differ, whatever the payloads are; otherwise the sum of
    the payloads under the lookup of the left operand. *)
Theorem plus_units_apart a b :
  isUnit a || isUnit b = true ->
  plus a b =
    if isSameUnit (getUnit a) (getUnit b)
    then result ← plus (getUnitless a) (getUnitless b);
         Ok (withUnits (getUnit a) result)
    else Throw differentUnits.
Proof.
  intros H. rewrite (plus_unfold a b). unfold plusBody at 1.
  rewrite handleCases_unfold, H.
  destruct (isSameUnit (getUnit a) (getUnit b)); [| done].
  cbn [negb mbind result_bind].
  fold (plusBody plus (getUnitless a) (getUnitless b)).
  rewrite <- plus_unfold.
  destruct (plus (getUnitless a) (getUnitless b)); [| done].
  cbn [mbind result_bind]. apply withUnits_Ok.
Qed.

(** 3[m] + 4[m] is 7[m]; 3[m] + 4[s] and 3[m] + 4 are rejected. *)
Lemma plus_units_apart_witness :
  isUnit (metres 3) || isUnit (metres 4) = true /\
  plus (metres 3) (metres 4) = Ok (metres 7) /\
  plus (metres 3) (seconds 4) = Throw differentUnits /\
  plus (metres 3) (number 4) = Throw differentUnits.
Proof.
  split; [reflexivity |]. split; [| split].
  - rewrite (plus_units_apart (metres 3) (metres 4)) by reflexivity.
    vm_compute. reflexivity.
  - rewrite (plus_units_apart (metres 3) (seconds 4)) by reflexivity.
    vm_compute. reflexivity.
  - rewrite (plus_units_apart (metres 3) (number 4)) by reflexivity.
    vm_compute. reflexivity.
Defined.



(** [power] on a unit and a number b: the payload to the power b, under the
    lookup with the exponents multiplied by b. *)
Theorem power_units_apart Math_pow units payload b :
  power Math_pow (Unit units payload) (Number b) =
    result ← power Math_pow payload (Number b);
    Ok (withUnits (mapUnit units (fun factor _ => factor * value b)) result).
Proof.
  unfold power. cbn [isUnit]. rewrite handleCases_unfold.
  cbn [isUnit orb getUnit getUnitless mbind result_bind].
  destruct (handleCases _ _ _ _ _ _ _); [| done].
  cbn [mbind result_bind]. apply withUnits_Ok.
Qed.

(** ** A number and a matrix *)

Lemma plus_number_matrix x b :
  plus (Number x) (Matrix b)
  = Ok (Matrix (mapCells (fun c => valueWrap (value x + value c)) b)).
Proof.
  rewrite plus_unfold. unfold plusBody. rewrite handleCases_unitless by done.
  cbn [dispatch].
  rewrite (mapMatrix_ext _ _ (fun c => Ok (valueWrap (value x + value c)))) by done.
  by rewrite mapMatrix_total.
Qed.

Lemma plus_matrix_number a y :
  plus (Matrix a) (Number y)
  = Ok (Matrix (mapCells (fun c => valueWrap (value c + value y)) a)).
Proof.
  rewrite plus_unfold. unfold plusBody. rewrite handleCases_unitless by done.
  cbn [dispatch].
  rewrite (mapMatrix_ext _ _ (fun c => Ok (valueWrap (value c + value y)))) by done.
  by rewrite mapMatrix_total.
Qed.

Lemma multiply_number_matrix x b :
  multiply (Number x) (Matrix b)
  = Ok (Matrix (mapCells (fun c => valueWrap (value x * value c)) b)).
Proof.
  rewrite multiply_unfold. unfold multiplyBody. rewrite handleCases_unitless by done.
  cbn [dispatch].
  rewrite (mapMatrix_ext _ _ (fun c => Ok (valueWrap (value x * value c)))) by done.
  by rewrite mapMatrix_total.
Qed.

Lemma multiply_matrix_number a y :
  multiply (Matrix a) (Number y)
  = Ok (Matrix (mapCells (fun c => valueWrap (value c * value y)) a)).
Proof.
  rewrite multiply_unfold. unfold multiplyBody. rewrite handleCases_unitless by done.
  cbn [dispatch].
  rewrite (mapMatrix_ext _ _ (fun c => Ok (valueWrap (value c * value y)))) by done.
  by rewrite mapMatrix_total.
Qed.

(** [plus] and [multiply] of a number and a matrix, in either order, never
    throw: the result is the matrix of the same shape with the number added
    to, or multiplied with, every cell, the number on the side it was given. *)
Theorem plus_multiply_broadcast x a :
  plus (Number x) (Matrix a)
    = Ok (Matrix (mapCells (fun c => valueWrap (value x + value c)) a))
  /\ plus (Matrix a) (Number x)
       = Ok (Matrix (mapCells (fun c => valueWrap (value c + value x)) a))
  /\ multiply (Number x) (Matrix a)
       = Ok (Matrix (mapCells (fun c => valueWrap (value x * value c)) a))
  /\ multiply (Matrix a) (Number x)
       = Ok (Matrix (mapCells (fun c => valueWrap (value c * value x)) a)).
Proof.
  split; [apply plus_number_matrix |]. split; [apply plus_matrix_number |].
  split; [apply multiply_number_matrix | apply multiply_matrix_number].
Qed.

Lemma divide_matrix_number a y :
  divide (Matrix a) (Number y) =
    if value y === 0 then Throw divisionByZero
    else Ok (Matrix (mapCells (fun c => valueWrap (value c / value y)) a)).
Proof.
  rewrite divide_unfold. unfold divideBody. cbn [isNumberZero].
  destruct (value y === 0) eqn:E; [done |].
  rewrite handleCases_unitless by done. cbn [dispatch].
  rewrite (mapMatrix_ext _ _ (fun c => Ok (valueWrap (value c / value y)))).
  - by rewrite mapMatrix_total.
  - intros c. rewrite divide_numbers. by rewrite E.
Qed.

(** A matrix divided by a number: "cannot divide by 0" when the number is a
    zero, before any cell is looked at (so also for a matrix without cells);
    otherwise the matrix of the same shape with every cell divided by the
    number. *)
Theorem divide_matrix_by_number a y :
  divide (Matrix a) (Number y) =
    if value y === 0
    then Throw (Error "Equation resolve: cannot divide by 0")
    else Ok (Matrix {| m := m a; n := n a;
                       values := map (map (fun c => valueWrap (value c / value y)))
                                     (values a) |}).
Proof. apply divide_matrix_number. Qed.

(** A matrix cannot be divided by a matrix, with or without units on either:
    "cannot handle operator". *)
Theorem divide_matrix_by_matrix a b ma mb :
  getUnitless a = Matrix ma -> getUnitless b = Matrix mb ->
  divide a b = Throw (Error "Equation resolve: cannot handle operator").
Proof.
  intros Ha Hb. rewrite divide_unfold. unfold divideBody.
  assert (isNumberZero b = false) as ->.
  { by destruct b. }
  rewrite handleCases_unfold. rewrite Ha, Hb.
  destruct (isUnit a || isUnit b); [| by destruct a, b].
  cbn [mbind result_bind]. by rewrite handleCases_unitless.
Qed.

Lemma divide_matrix_by_matrix_witness :
  getUnitless (Unit {[ "m" := 1 ]} (Matrix (matrix_1x1 6))) = Matrix (matrix_1x1 6) /\
  getUnitless (Matrix (matrix_1x1 3)) = Matrix (matrix_1x1 3) /\
  divide (Unit {[ "m" := 1 ]} (Matrix (matrix_1x1 6))) (Matrix (matrix_1x1 3))
    = Throw (Error "Equation resolve: cannot handle operator").
Proof.
  split; [reflexivity |]. split; [reflexivity |].
  apply (divide_matrix_by_matrix _ _ (matrix_1x1 6) (matrix_1x1 3)); reflexivity.
Defined.

(** ** Sums of matrices *)

Lemma tabulate_shaped rows cols f :
  shaped {| m := rows; n := cols; values := tabulate rows cols f |}.
Proof.
  unfold shaped, tabulate. simpl. split.
  - by rewrite length_map, length_seq.
  - apply Forall_forall. intros row (i & -> & _)%list_elem_of_fmap.
    by rewrite length_map, length_seq.
Qed.

Lemma tabulate_cell rows cols f i j :
  (i < rows)%nat -> (j < cols)%nat ->
  cell {| m := rows; n := cols; values := tabulate rows cols f |} i j = f i j.
Proof.
  intros Hi Hj. unfold cell, tabulate. simpl.
  rewrite (nth_indep _ [] (map (fun j => valueWrap (f 0%nat j)) (seq 0 cols)))
    by (by rewrite length_map, length_seq).
  rewrite (map_nth (fun i => map (fun j => valueWrap (f i j)) (seq 0 cols))
             (seq 0 rows) 0%nat i).
  rewrite seq_nth by done. simpl.
  rewrite (nth_indep _ (valueWrap 0) (valueWrap (f i 0%nat)))
    by (by rewrite length_map, length_seq).
  rewrite (map_nth (fun j => valueWrap (f i j)) (seq 0 cols) 0%nat j).
  by rewrite seq_nth.
Qed.

Lemma plus_matrices_fitting a b :
  shaped a -> shaped b -> m a = m b -> n a = n b ->
  plus (Matrix a) (Matrix b) = Ok (Matrix (sumOfMatrices a b)).
Proof.
  intros Ha Hb Hm Hn. rewrite plus_unfold. unfold plusBody.
  rewrite handleCases_unitless by done. cbn [dispatch].
  rewrite <- Hm, <- Hn, !Nat.eqb_refl. cbn [negb orb]. unfold arrayMap.
  rewrite (mapFrom_total _
             (fun i => map (fun j => valueWrap (cell a i j + cell b i j)) (seq 0 (n a)))).
  - cbn [mbind result_bind]. unfold sumOfMatrices, tabulate. by rewrite (proj1 Ha).
  - intros i row Hrow. cbn [Nat.add].
    destruct (lookup_row _ _ _ Hrow Ha) as (Hi & -> & Hlen).
    rewrite (mapFrom_total _ (fun j => valueWrap (cell a i j + cell b i j))).
    + by rewrite Hlen.
    + intros j c Hc. cbn [Nat.add].
      pose proof (lookup_lt_Some _ _ _ Hc) as Hj. rewrite Hlen in Hj.
      rewrite (at_nth (values b) i []) by (rewrite (proj1 Hb); lia).
      cbn [mbind result_bind].
      rewrite (at_nth _ j (valueWrap 0)) by (rewrite shaped_row; [lia | done | lia]).
      cbn [mbind result_bind]. rewrite plus_numbers. cbn [asNumber mbind result_bind].
      unfold cell. by rewrite (nth_lookup_Some _ _ (valueWrap 0) _ Hc).
Qed.

(** [plus] on two unitless matrices with [m] rows of [n] cells each.  With
    the same [m] and [n]: the matrix of that shape whose cells are the sums
    of the cells in the same place.  With another [m] or [n]: the exception
    "cannot add ... matrix to ... matrix" with the two shapes. *)
Theorem plus_unitless_matrices a b :
  shaped a -> shaped b ->
  (m a = m b -> n a = n b ->
     exists c,
       plus (Matrix a) (Matrix b) = Ok (Matrix c)
       /\ m c = m a /\ n c = n a /\ shaped c
       /\ forall i j, (i < m a)%nat -> (j < n a)%nat ->
            cell c i j = cell a i j + cell b i j)
  /\ (m a <> m b \/ n a <> n b ->
        plus (Matrix a) (Matrix b)
          = Throw (Error ("Equation resolve: cannot add " +:+ dims a
                            +:+ " matrix to " +:+ dims b +:+ " matrix"))).
Proof.
  intros Ha Hb. split.
  - intros Hm Hn. exists (sumOfMatrices a b).
    split; [by apply plus_matrices_fitting |].
    split; [done |]. split; [done |].
    split; [apply tabulate_shaped | apply tabulate_cell].
  - intros Hne. rewrite plus_unfold. unfold plusBody.
    rewrite handleCases_unitless by done. cbn [dispatch].
    assert (negb (n a =? n b)%nat || negb (m a =? m b)%nat = true) as ->; [| done].
    apply orb_true_iff.
    destruct (Nat.eqb_spec (n a) (n b)), (Nat.eqb_spec (m a) (m b)); cbn; tauto.
Qed.

Lemma matrix_2x2_shaped a b c d : shaped (matrix_2x2 a b c d).
Proof. split; [done |]. by repeat constructor. Qed.

Lemma plus_unitless_matrices_witness :
  shaped (matrix_2x2 1 2 3 4) /\ shaped (matrix_2x2 10 20 30 40) /\
  shaped (matrix_1x1 5) /\
  plus (Matrix (matrix_2x2 1 2 3 4)) (Matrix (matrix_2x2 10 20 30 40))
    = Ok (Matrix (matrix_2x2 11 22 33 44)) /\
  plus (Matrix (matrix_2x2 1 2 3 4)) (Matrix (matrix_1x1 5))
    = Throw (Error "Equation resolve: cannot add 2x2 matrix to 1x1 matrix").
Proof.
  assert (H1 : shaped (matrix_2x2 1 2 3 4)) by apply matrix_2x2_shaped.
  assert (H2 : shaped (matrix_2x2 10 20 30 40)) by apply matrix_2x2_shaped.
  assert (H3 : shaped (matrix_1x1 5)) by (split; [done | by repeat constructor]).
  split; [done |]. split; [done |]. split; [done |]. split.
  - destruct (plus_unitless_matrices _ _ H1 H2) as [Hsum _].
    destruct (Hsum eq_refl eq_refl) as (c & Hc & _). vm_compute. reflexivity.
  - destruct (plus_unitless_matrices _ _ H1 H3) as [_ Herr].
    rewrite Herr by (left; discriminate). vm_compute. reflexivity.
Defined.

(** ** Commutativity beyond scalars *)

Lemma mapCells_ext f g a :
  (forall c, f c = g c) -> mapCells f a = mapCells g a.
Proof.
  intros H. unfold mapCells. f_equal.
  apply map_ext. intros row. by apply map_ext.
Qed.

(** [plus] and [multiply] do not depend on the side on which a number and a
    matrix are given. *)
Theorem plus_multiply_comm_number_matrix x a :
  plus (Number x) (Matrix a) = plus (Matrix a) (Number x)
  /\ multiply (Number x) (Matrix a) = multiply (Matrix a) (Number x).
Proof.
  rewrite plus_number_matrix, plus_matrix_number.
  rewrite multiply_number_matrix, multiply_matrix_number.
  split; do 2 f_equal; apply mapCells_ext; intros c.
  - by rewrite number_add_comm.
  - by rewrite number_mul_comm.
Qed.

Lemma tabulate_ext rows cols f g :
  (forall i j, f i j = g i j) -> tabulate rows cols f = tabulate rows cols g.
Proof.
  intros H. unfold tabulate. apply map_ext. intros i. apply map_ext. intros j.
  by rewrite H.
Qed.

(** [plus] does not depend on the order of two unitless matrices of the same
    shape.  (With different shapes the two exceptions name the shapes in
    different orders.) *)
Theorem plus_comm_matrices a b :
  shaped a -> shaped b -> m a = m b -> n a = n b ->
  plus (Matrix a) (Matrix b) = plus (Matrix b) (Matrix a).
Proof.
  intros Ha Hb Hm Hn.
  rewrite (plus_matrices_fitting a b), (plus_matrices_fitting b a) by done.
  do 2 f_equal. unfold sumOfMatrices. rewrite Hm, Hn. f_equal.
  apply tabulate_ext. intros i j. apply number_add_comm.
Qed.

Lemma plus_comm_matrices_witness :
  shaped (matrix_2x2 1 2 3 4) /\ shaped (matrix_2x2 10 20 30 40) /\
  m (matrix_2x2 1 2 3 4) = m (matrix_2x2 10 20 30 40) /\
  n (matrix_2x2 1 2 3 4) = n (matrix_2x2 10 20 30 40) /\
  plus (Matrix (matrix_2x2 1 2 3 4)) (Matrix (matrix_2x2 10 20 30 40))
    = plus (Matrix (matrix_2x2 10 20 30 40)) (Matrix (matrix_2x2 1 2 3 4)) /\
  plus (Matrix (matrix_2x2 1 2 3 4)) (Matrix (matrix_1x1 5))
    <> plus (Matrix (matrix_1x1 5)) (Matrix (matrix_2x2 1 2 3 4)).
Proof.
  split; [apply matrix_2x2_shaped |]. split; [apply matrix_2x2_shaped |].
  split; [reflexivity |]. split; [reflexivity |]. split.
  - apply plus_comm_matrices; (apply matrix_2x2_shaped || reflexivity).
  - vm_compute. discriminate.
Defined.

Lemma sumOfProducts_ext len f g :
  (forall k, f k = g k) -> sumOfProducts len f = sumOfProducts len g.
Proof.
  intros H. unfold sumOfProducts. generalize 0 as current. generalize 0%nat as start.
  induction len as [| len IH]; intros start current; simpl; [done |].
  by rewrite H, IH.
Qed.

(** The scalar product does not depend on the order of the two columns: the
    same number, or the same exception when the columns differ in length. *)
Theorem scalar_product_comm a b :
  shaped a -> shaped b -> n a = 1%nat -> n b = 1%nat ->
  multiply (Matrix a) (Matrix b) = multiply (Matrix b) (Matrix a).
Proof.
  intros Ha Hb Hna Hnb. rewrite !multiply_matrices, Hna, Hnb. cbn [Nat.eqb andb].
  destruct (Nat.eq_dec (m a) (m b)) as [Hm | Hm].
  - rewrite (scalarProduct_balanced a b), (scalarProduct_balanced b a) by done.
    do 3 f_equal. unfold dotProduct. rewrite Hm.
    apply sumOfProducts_ext. intros i. apply number_mul_comm.
  - unfold scalarProduct.
    assert ((m a =? m b)%nat = false) as -> by by apply Nat.eqb_neq.
    assert ((m b =? m a)%nat = false) as -> by (apply Nat.eqb_neq; congruence).
    done.
Qed.

Lemma column_shaped cells : shaped (column cells).
Proof.
  unfold shaped, column. simpl. split.
  - by rewrite length_map.
  - apply Forall_forall. by intros row (x & -> & _)%list_elem_of_fmap.
Qed.

Lemma scalar_product_comm_witness :
  shaped (column [1; 2; 3]) /\ shaped (column [4; 5; 6]) /\
  n (column [1; 2; 3]) = 1%nat /\ n (column [4; 5; 6]) = 1%nat /\
  multiply (Matrix (column [1; 2; 3])) (Matrix (column [4; 5; 6]))
    = multiply (Matrix (column [4; 5; 6])) (Matrix (column [1; 2; 3])).
Proof.
  split; [apply column_shaped |]. split; [apply column_shaped |].
  split; [reflexivity |]. split; [reflexivity |].
  apply scalar_product_comm; (apply column_shaped || reflexivity).
Defined.

(** ** More on the unit algebra *)

Lemma plainKeys_insert key value u :
  JS.inheritedName key = false -> plainKeys u -> plainKeys (<[ key := value ]> u).
Proof.
  intros H Pu k [v Hk]. destruct (decide (k = key)) as [-> | Hne]; [done |].
  rewrite lookup_insert_ne in Hk by done. apply Pu. by eexists.
Qed.

(** [mapUnits] on lookups without a zero or NaN exponent, and without a unit
    that has the name of a member of [Object.prototype], combines the
    exponents key by key, a key that one lookup lacks counting as the
    exponent 0 there, and leaves out the keys whose result is a zero. *)
Theorem mapUnits_key_by_key a b mapper :
  truthyExponents a -> truthyExponents b ->
  plainKeys a -> plainKeys b ->
  forall key,
    mapUnits a b mapper !! key =
      match a !! key, b !! key with
      | None, None => None
      | oa, ob => kept (mapper (default 0 oa) (default 0 ob) key)
      end.
Proof.
  intros Ha Hb _ Pb key. rewrite lookup_mapUnits.
  destruct (a !! key) as [va |] eqn:Ea, (b !! key) as [vb |] eqn:Eb; try done.
  - rewrite (Ha _ _ Ea). cbn [JS.orZero default]. by rewrite (Hb _ _ Eb).
  - rewrite Pb; [done | by rewrite Eb].
Qed.

Lemma truthyExponents_singleton key value :
  JS.truthy value = true -> truthyExponents {[ key := value ]}.
Proof.
  intros H k v. destruct (decide (k = key)) as [-> | Hne].
  - rewrite lookup_singleton_eq. by intros [= <-].
  - by rewrite lookup_singleton_ne.
Qed.

(** m^2 against m^-2 s: the exponent of m cancels and the key is left out,
    s, which the left lookup lacks, gets 0 + 1.  (A unit named constructor
    in the right lookup would get nothing: the left lookup inherits a member
    of that name.) *)
Lemma mapUnits_key_by_key_witness :
  truthyExponents {[ "m" := 2 ]} /\
  truthyExponents (<[ "s" := 1 ]> {[ "m" := -2 ]}) /\
  plainKeys {[ "m" := 2 ]} /\
  plainKeys (<[ "s" := 1 ]> {[ "m" := -2 ]}) /\
  mapUnits {[ "m" := 2 ]} (<[ "s" := 1 ]> {[ "m" := -2 ]}) addExponents !! "m" = None /\
  mapUnits {[ "m" := 2 ]} (<[ "s" := 1 ]> {[ "m" := -2 ]}) addExponents !! "s" = Some 1 /\
  mapUnits {[ "m" := 2 ]} {[ "constructor" := 1 ]} addExponents !! "constructor" = None.
Proof.
  assert (Pa : plainKeys {[ "m" := 2 ]}) by by apply plainKeys_singleton.
  assert (Pb : plainKeys (<[ "s" := 1 ]> {[ "m" := -2 ]})).
  { apply plainKeys_insert; [done |]. by apply plainKeys_singleton. }
  assert (Ha : truthyExponents {[ "m" := 2 ]}) by by apply truthyExponents_singleton.
  assert (Hb : truthyExponents (<[ "s" := 1 ]> {[ "m" := -2 ]})).
  { intros k v. destruct (decide (k = "s")) as [-> | Hne].
    - rewrite lookup_insert_eq. by intros [= <-].
    - rewrite lookup_insert_ne by done. by apply truthyExponents_singleton. }
  split; [done |]. split; [done |]. split; [done |]. split; [done |].
  split; [| split].
  - rewrite (mapUnits_key_by_key _ _ addExponents Ha Hb Pa Pb). reflexivity.
  - rewrite (mapUnits_key_by_key _ _ addExponents Ha Hb Pa Pb). reflexivity.
  - vm_compute. reflexivity.
Defined.

(** [mapUnit] and [mapUnits] never make up a key and never store a zero:
    an entry of the result has a key of one of the lookups given and an
    exponent that is not a zero, whatever the mapper and the lookups are. *)
Theorem mapUnit_mapUnits_entries :
  (forall x mapper key value,
     mapUnit x mapper !! key = Some value ->
     is_Some (x !! key) /\ (value !== 0) = true)
  /\ (forall a b mapper key value,
        mapUnits a b mapper !! key = Some value ->
        (is_Some (a !! key) \/ is_Some (b !! key)) /\ (value !== 0) = true).
Proof.
  split.
  - intros x mapper key value. rewrite lookup_mapUnit.
    destruct (x !! key) as [v |]; [| done]. cbn. intros H.
    split; [by eexists | by eapply kept_Some].
  - intros a b mapper key value H. split; [| by eapply mapUnits_no_zero].
    rewrite lookup_mapUnits in H.
    destruct (a !! key), (b !! key); try done; eauto.
Qed.

(** [mapUnit] calls its mapper once at every key of the lookup and at no
    other key.  So does [mapUnits] at the keys of its two lookups, when the
    first has no zero or NaN exponent and no unit of either has the name of
    a member of [Object.prototype]. *)
Theorem mapUnit_mapUnits_calls :
  (forall x mapper key,
     calls key (mapUnitTraced x mapper).2 = if x !! key is Some _ then 1%nat else 0%nat)
  /\ (forall a b mapper key,
        truthyExponents a -> plainKeys a -> plainKeys b ->
        calls key (mapUnitsTraced a b mapper).2 =
          match a !! key, b !! key with
          | None, None => 0%nat
          | _, _ => 1%nat
          end).
Proof.
  split.
  - intros x mapper key. apply mapUnitTraced_spec.
  - intros a b mapper key Ha _ Pb. rewrite mapUnits_calls.
    destruct (a !! key) as [va |] eqn:Ea, (b !! key) as [vb |] eqn:Eb; try done.
    + by rewrite (Ha _ _ Ea).
    + rewrite Pb; [done | by rewrite Eb].
Qed.

Lemma mapUnit_mapUnits_entries_witness :
  mapUnits {[ "m" := 2 ]} {[ "s" := 1 ]} addExponents !! "s" = Some 1 /\
  (is_Some (({[ "m" := 2 ]} : UnitLookup) !! "s")
   \/ is_Some (({[ "s" := 1 ]} : UnitLookup) !! "s")) /\
  (1 !== 0) = true.
Proof.
  assert (H : mapUnits {[ "m" := 2 ]} {[ "s" := 1 ]} addExponents !! "s" = Some 1)
    by (vm_compute; reflexivity).
  split; [exact H |].
  exact (proj2 mapUnit_mapUnits_entries _ _ _ _ _ H).
Defined.

(** ** What the operators return *)

Lemma fmap_Matrix_unitless (r : result ResultTreeMatrix) v :
  Matrix <$> r = Ok v -> isUnit v = false.
Proof. destruct r; cbn; [by intros [= <-] | done]. Qed.

Lemma fmap_Number_unitless (r : result ResultTreeNumber) v :
  Number <$> r = Ok v -> isUnit v = false.
Proof. destruct r; cbn; [by intros [= <-] | done]. Qed.

Lemma handleCases_unit_nonempty cu nn nm mn mm :
  unitlessValued nn -> unitlessValued nm -> unitlessValued mn -> unitlessValued mm ->
  forall a b v,
    handleCases a b cu nn nm mn mm = Ok v -> isUnit v = true -> getUnit v <> ∅.
Proof.
  intros Hnn Hnm Hmn Hmm a b.
  remember (unitDepth a + unitDepth b)%nat as k eqn:Ek.
  revert a b Ek. induction (lt_wf k) as [k _ IH]. intros a b -> v.
  rewrite handleCases_unfold.
  destruct (isUnit a || isUnit b) eqn:E.
  - destruct (cu (getUnit a) (getUnit b)) as [units | e]; [| done].
    cbn [mbind result_bind].
    destruct (handleCases (getUnitless a) (getUnitless b) cu nn nm mn mm)
      as [result | e] eqn:Er; [| done].
    cbn [mbind result_bind].
    destruct (isEmptyUnit units) eqn:Eu; intros [= <-].
    + eapply IH; [| done | exact Er]. by apply unitDepth_stripped.
    + intros _. cbn [getUnit]. by apply bool_decide_eq_false in Eu.
  - intros Hv Hu. by rewrite (dispatch_unitless _ _ _ _ _ _ _ Hnn Hnm Hmn Hmm Hv) in Hu.
Qed.

Lemma plus_unit_nonempty a b v :
  plus a b = Ok v -> isUnit v = true -> getUnit v <> ∅.
Proof.
  rewrite plus_unfold. unfold plusBody. apply handleCases_unit_nonempty.
  - by intros g x y w [= <-] [= <-].
  - intros g x y w [= <-]. apply fmap_Matrix_unitless.
  - intros g x y w [= <-]. apply fmap_Matrix_unitless.
  - intros g x y w [= <-]. destruct (_ || _); [done |].
    destruct (arrayMap _ _); cbn; [by intros [= <-] | done].
Qed.

Lemma multiply_unit_nonempty a b v :
  multiply a b = Ok v -> isUnit v = true -> getUnit v <> ∅.
Proof.
  rewrite multiply_unfold. unfold multiplyBody. apply handleCases_unit_nonempty.
  - by intros g x y w [= <-] [= <-].
  - intros g x y w [= <-]. apply fmap_Matrix_unitless.
  - intros g x y w [= <-]. apply fmap_Matrix_unitless.
  - intros g x y w [= <-]. destruct (_ && _).
    + apply fmap_Number_unitless.
    + apply fmap_Matrix_unitless.
Qed.

Lemma divide_unit_nonempty a b v :
  divide a b = Ok v -> isUnit v = true -> getUnit v <> ∅.
Proof.
  rewrite divide_unfold. unfold divideBody. destruct (isNumberZero b); [done |].
  apply handleCases_unit_nonempty.
  - by intros g x y w [= <-] [= <-].
  - intros g x y w [= <-]. apply fmap_Matrix_unitless.
  - intros g x y w [= <-]. apply fmap_Matrix_unitless.
  - apply unitlessValued_None.
Qed.

Lemma power_unit_nonempty Math_pow a b v :
  power Math_pow a b = Ok v -> isUnit v = true -> getUnit v <> ∅.
Proof.
  unfold power. destruct (isUnit b); [done |].
  destruct b as [b | b | ub vb]; try done.
  apply handleCases_unit_nonempty.
  - by intros g x y w [= <-] [= <-].
  - apply unitlessValued_None.
  - intros g x y w [= <-]. apply fmap_Matrix_unitless.
  - apply unitlessValued_None.
Qed.

(** No operator of the table returns a unit with an empty lookup, whatever
    the operands are: a result without units is a bare number or matrix. *)
Theorem operators_never_empty_unit Math_pow op a b v :
  operators Math_pow op a b = Ok v -> isUnit v = true -> getUnit v <> ∅.
Proof.
  destruct op; cbn [operators].
  - apply plus_unit_nonempty.
  - apply plus_unit_nonempty.
  - done.
  - apply multiply_unit_nonempty.
  - unfold multiplyImplied. destruct a as [a | a | ua va], b as [b | b | ub vb];
      try apply multiply_unit_nonempty.
    destruct (_ && _); [done | apply multiply_unit_nonempty].
  - apply divide_unit_nonempty.
  - apply power_unit_nonempty.
Qed.

(** m^2 divided by m^2 s is a unit with the lookup s^-1, and 3[m] / 4[m] a
    bare number. *)
Lemma operators_never_empty_unit_witness :
  let pow := fun x y : float => x in
  operators pow OpDivide (Unit {[ "m" := 2 ]} (number 3))
                         (Unit (<[ "s" := 1 ]> {[ "m" := 2 ]}) (number 4))
    = Ok (Unit {[ "s" := -1 ]} (number 0.75)) /\
  isUnit (Unit {[ "s" := -1 ]} (number 0.75)) = true /\
  getUnit (Unit {[ "s" := -1 ]} (number 0.75)) <> ∅ /\
  operators pow OpDivide (metres 3) (metres 4) = Ok (number 0.75).
Proof.
  intros pow.
  assert (H : operators pow OpDivide (Unit {[ "m" := 2 ]} (number 3))
                (Unit (<[ "s" := 1 ]> {[ "m" := 2 ]}) (number 4))
              = Ok (Unit {[ "s" := -1 ]} (number 0.75)))
    by (vm_compute; reflexivity).
  split; [exact H |]. split; [reflexivity |].
  split; [exact (operators_never_empty_unit pow _ _ _ _ H eq_refl) |].
  vm_compute. reflexivity.
Defined.

(** ** The operators keep the data model *)

Lemma unitless_isUnit x : unitless x -> isUnit x = false.
Proof. by destruct x. Qed.

Lemma unitless_valid x : unitless x -> valid x.
Proof. destruct x; try done; intros H; (split; [done | by intros key value]). Qed.

Lemma wellFormed_cells g a :
  wellFormed a ->
  wellFormed {| m := m a; n := n a; values := map (map g) (values a) |}.
Proof.
  intros (Hm & Hn & Hlen & Hrows). split; [done |]. split; [done |]. split; simpl.
  - by rewrite length_map.
  - apply Forall_forall. intros row (r & -> & Hr)%list_elem_of_fmap.
    rewrite length_map. rewrite Forall_forall in Hrows. by apply Hrows.
Qed.

Lemma handleCases_keeps a b cu nn nm mn mm :
  valid a -> valid b ->
  (forall ua ub, noZeroExponent ua -> noZeroExponent ub -> keepsLookup (cu ua ub)) ->
  (forall x y, unitless x -> unitless y -> keepsPayload (dispatch x y nn nm mn mm)) ->
  keepsDataModel (handleCases a b cu nn nm mn mm).
Proof.
  intros [Ha Hua] [Hb Hub] Hcu Hd. rewrite handleCases_unfold.
  destruct (isUnit a || isUnit b) eqn:E.
  - specialize (Hcu _ _ Hua Hub).
    destruct (cu (getUnit a) (getUnit b)) as [units | e]; [| done].
    cbn [mbind result_bind].
    rewrite handleCases_unitless by by apply unitless_isUnit.
    specialize (Hd _ _ Ha Hb).
    destruct (dispatch _ _ _ _ _ _) as [result | e]; [| done].
    cbn [mbind result_bind].
    destruct (isEmptyUnit units); cbn; [by apply unitless_valid | done].
  - apply orb_false_iff in E as [Ea Eb].
    assert (getUnitless a = a) as Ga by by destruct a.
    assert (getUnitless b = b) as Gb by by destruct b.
    rewrite Ga in Ha. rewrite Gb in Hb. specialize (Hd _ _ Ha Hb).
    destruct (dispatch _ _ _ _ _ _) as [result | e]; [| done].
    by apply unitless_valid.
Qed.

Lemma plus_matrices_mismatch a b :
  m a <> m b \/ n a <> n b ->
  exists message, plus (Matrix a) (Matrix b) = Throw (Error message).
Proof.
  intros Hne. rewrite plus_unfold. unfold plusBody.
  rewrite handleCases_unitless by done. cbn [dispatch].
  assert (negb (n a =? n b)%nat || negb (m a =? m b)%nat = true) as ->;
    [| by eexists].
  apply orb_true_iff.
  destruct (Nat.eqb_spec (n a) (n b)), (Nat.eqb_spec (m a) (m b)); cbn; tauto.
Qed.

Lemma plus_keeps_payload x y : unitless x -> unitless y -> keepsPayload (plus x y).
Proof.
  destruct x as [x | a |], y as [y | b |]; try done; intros Hx Hy.
  - rewrite plus_number_matrix. by apply wellFormed_cells.
  - rewrite plus_matrix_number. by apply wellFormed_cells.
  - destruct (Nat.eq_dec (m a) (m b)) as [Hm |];
      [destruct (Nat.eq_dec (n a) (n b)) as [Hn |] |].
    + rewrite plus_matrices_fitting by (done || apply Hx || apply Hy).
      destruct Hx as (? & ? & _). split; [done |]. split; [done |].
      apply tabulate_shaped.
    + destruct (plus_matrices_mismatch a b) as [message ->]; [by right | done].
    + destruct (plus_matrices_mismatch a b) as [message ->]; [by left | done].
Qed.

Lemma multiply_keeps_payload x y : unitless x -> unitless y -> keepsPayload (multiply x y).
Proof.
  destruct x as [x | a |], y as [y | b |]; try done; intros Hx Hy.
  - rewrite multiply_number_matrix. by apply wellFormed_cells.
  - rewrite multiply_matrix_number. by apply wellFormed_cells.
  - rewrite multiply_matrices.
    destruct ((n a =? 1)%nat && (n b =? 1)%nat) eqn:E.
    + apply andb_true_iff in E as [Ea%Nat.eqb_eq Eb%Nat.eqb_eq].
      destruct (Nat.eq_dec (m a) (m b)) as [Hm | Hm].
      * by rewrite scalarProduct_balanced by (done || apply Hx || apply Hy).
      * unfold scalarProduct. apply Nat.eqb_neq in Hm. by rewrite Hm.
    + destruct (Nat.eq_dec (n a) (m b)) as [Hn | Hn].
      * rewrite matrixProduct_fitting by done. cbn.
        destruct Hx as (? & _), Hy as (_ & ? & _).
        split; [done |]. split; [done |]. apply productValues_shaped.
      * unfold matrixProduct. apply Nat.eqb_neq in Hn. by rewrite Hn.
Qed.

Lemma keepsLookup_mapUnits a b mapper : keepsLookup (Ok (mapUnits a b mapper)).
Proof. intros key value. apply mapUnits_no_zero. Qed.

Lemma keepsLookup_mapUnit x mapper : keepsLookup (Ok (mapUnit x mapper)).
Proof.
  intros key value. rewrite lookup_mapUnit. destruct (x !! key); [| done].
  apply kept_Some.
Qed.

Lemma plus_keeps a b : valid a -> valid b -> keepsDataModel (plus a b).
Proof.
  intros Ha Hb. rewrite plus_unfold. unfold plusBody.
  apply handleCases_keeps; [done | done | |].
  - intros ua ub Hua Hub. by destruct (negb (isSameUnit ua ub)).
  - intros x y Hx Hy.
    pose proof (plus_unfold x y) as E. unfold plusBody in E.
    rewrite handleCases_unitless in E by by apply unitless_isUnit.
    rewrite <- E. by apply plus_keeps_payload.
Qed.

Lemma multiply_keeps a b : valid a -> valid b -> keepsDataModel (multiply a b).
Proof.
  intros Ha Hb. rewrite multiply_unfold. unfold multiplyBody.
  apply handleCases_keeps; [done | done | |].
  - intros ua ub _ _. apply keepsLookup_mapUnits.
  - intros x y Hx Hy.
    pose proof (multiply_unfold x y) as E. unfold multiplyBody in E.
    rewrite handleCases_unitless in E by by apply unitless_isUnit.
    rewrite <- E. by apply multiply_keeps_payload.
Qed.

Lemma divide_keeps a b : valid a -> valid b -> keepsDataModel (divide a b).
Proof.
  intros Ha Hb. rewrite divide_unfold. unfold divideBody.
  destruct (isNumberZero b); [done |].
  apply handleCases_keeps; [done | done | |].
  - intros ua ub _ _. apply keepsLookup_mapUnits.
  - intros x y Hx Hy. destruct x as [x | a' |], y as [y | b' |]; try done;
      cbn [dispatch].
    + rewrite (mapMatrix_ext _ _ (fun c =>
                 if isZeroCell c then Throw divisionByZero
                 else Ok (valueWrap (value x / value c)))).
      * rewrite mapMatrix_guard. destruct (existsb _ _); [done |].
        by apply wellFormed_cells.
      * intros c. rewrite divide_numbers. unfold isZeroCell.
        by destruct (value c === 0).
    + rewrite (mapMatrix_ext _ _ (fun c =>
                 if (fun _ => value y === 0) c then Throw divisionByZero
                 else Ok (valueWrap (value c / value y)))).
      * rewrite mapMatrix_guard. destruct (existsb _ _); [done |].
        by apply wellFormed_cells.
      * intros c. rewrite divide_numbers. by destruct (value y === 0).
Qed.

Lemma power_keeps Math_pow a b : valid a -> valid b -> keepsDataModel (power Math_pow a b).
Proof.
  intros Ha Hb. unfold power. destruct (isUnit b); [done |].
  destruct b as [b | b | ub vb]; try done.
  apply handleCases_keeps; [done | done | |].
  - intros ua ub _ _. apply keepsLookup_mapUnit.
  - intros x y Hx Hy. destruct x as [x | a' |], y as [y | b' |]; try done.
    cbn [dispatch]. rewrite mapMatrix_total. by apply wellFormed_cells.
Qed.

Lemma negate_valid b : valid b -> valid (negate b).
Proof.
  intros [Hb Hu].
  destruct b as [y | y | ub [y | y |]]; try done; (split; [| done]); cbn in *.
  - by apply wellFormed_cells.
  - by apply wellFormed_cells.
Qed.

(** On values of the data model (a number or a matrix with [m] >= 1 rows of
    [n] >= 1 cells, bare or inside one unit, no zero exponent), every
    operator of the table returns a value of the data model or throws one of
    its own [Error]s: no unit inside a unit, no matrix out of shape, no zero
    exponent, and never the engine's TypeError for a read on [undefined]. *)
Theorem operators_keep_data_model Math_pow op a b :
  valid a -> valid b -> keepsDataModel (operators Math_pow op a b).
Proof.
  intros Ha Hb. destruct op; cbn [operators].
  - by apply plus_keeps.
  - unfold minus. apply plus_keeps; [done | by apply negate_valid].
  - done.
  - by apply multiply_keeps.
  - unfold multiplyImplied.
    destruct a as [a' | a' | ua va], b as [b' | b' | ub vb];
      try by apply multiply_keeps.
    destruct (_ && _); [done | by apply multiply_keeps].
  - by apply divide_keeps.
  - by apply power_keeps.
Qed.

Lemma noZeroExponent_singleton key value :
  (value !== 0) = true -> noZeroExponent {[ key := value ]}.
Proof.
  intros H k v. destruct (decide (k = key)) as [-> | Hne].
  - rewrite lookup_singleton_eq. by intros [= <-].
  - by rewrite lookup_singleton_ne.
Qed.

(** The 2x2 matrix (1 2; 3 4) in metres times the column (5, 6) is the
    column (17, 39) in metres. *)
Lemma operators_keep_data_model_witness :
  let pow := fun x y : float => x in
  let a := Unit {[ "m" := 1 ]} (Matrix (matrix_2x2 1 2 3 4)) in
  let b := Matrix (column [5; 6]) in
  let v := Unit {[ "m" := 1 ]} (Matrix (column [17; 39])) in
  valid a /\ valid b /\ operators pow OpMultiply a b = Ok v /\ valid v.
Proof.
  intros pow a b v.
  assert (Ha : valid a).
  { split; [| by apply noZeroExponent_singleton].
    split; [cbn; lia |]. split; [cbn; lia | apply matrix_2x2_shaped]. }
  assert (Hb : valid b).
  { apply unitless_valid. apply column_wellFormed. cbn. lia. }
  assert (Hv : operators pow OpMultiply a b = Ok v) by (vm_compute; reflexivity).
  split; [done |]. split; [done |]. split; [done |].
  pose proof (operators_keep_data_model pow OpMultiply a b Ha Hb) as H.
  by rewrite Hv in H.
Defined.

(** ** Subtraction, and exponents that cancel *)

Section Binary64Exponents.

Import SpecFloat.

Lemma SFsub_add_opp x y : SFsub prec emax x y = SFadd prec emax x (SFopp y).
Proof.
  destruct x as [sx | sx | | sx mx ex], y as [sy | sy | | sy my ey]; simpl; try done.
  - by destruct sx, sy.
  - by destruct sx, sy.
  - f_equal. destruct sy; simpl; lia.
Qed.

Lemma number_sub_add_opp (x y : float) : x - y = x + - y.
Proof.
  apply Prim2SF_inj.
  rewrite FloatAxioms.sub_spec, FloatAxioms.add_spec, FloatAxioms.opp_spec.
  apply SFsub_add_opp.
Qed.

Lemma is_finite_spec x :
  is_finite x = match Prim2SF x with
                | S754_nan | S754_infinity _ => false
                | _ => true
                end.
Proof.
  unfold is_finite, is_nan, is_infinity.
  rewrite !FloatAxioms.eqb_spec, SFeqb_refl, FloatAxioms.abs_spec.
  change (Prim2SF infinity) with (S754_infinity false).
  by destruct (Prim2SF x) as [s | s | | s mx ex].
Qed.

(** e - e, 0 - e and e - 0 for a finite e that is truthy or not. *)
Lemma finite_sub_self e :
  is_finite e = true -> JS.truthy e = true -> (e - e !== 0) = false.
Proof.
  rewrite is_finite_spec, truthy_spec. unfold JS.strictNe.
  rewrite strictEq_zero, FloatAxioms.sub_spec.
  destruct (Prim2SF e) as [s | s | | s mx ex]; try done. intros _ _. simpl.
  by rewrite Z.sub_diag.
Qed.

Lemma finite_falsy_sub e :
  is_finite e = true -> JS.truthy e = false ->
  (0 - e !== 0) = false /\ (e - 0 !== 0) = false.
Proof.
  rewrite is_finite_spec, truthy_spec. unfold JS.strictNe.
  rewrite !strictEq_zero, !FloatAxioms.sub_spec.
  change (Prim2SF 0) with (S754_zero false).
  destruct (Prim2SF e) as [s | s | | s mx ex]; try done. intros _ _.
  by destruct s.
Qed.

(** e * b for a finite e and a zero b. *)
Lemma finite_mul_zero e b :
  is_finite e = true -> (b === 0) = true -> (e * b !== 0) = false.
Proof.
  rewrite is_finite_spec. unfold JS.strictNe.
  rewrite !strictEq_zero, FloatAxioms.mul_spec.
  by destruct (Prim2SF e) as [s | s | | s mx ex], (Prim2SF b) as [t | t | | t my ey].
Qed.

End Binary64Exponents.

Lemma mapUnits_sub_self u :
  finiteExponents u -> mapUnits u u subExponents = ∅.
Proof.
  intros Hu. apply map_eq. intros key. rewrite lookup_mapUnits, lookup_empty.
  destruct (u !! key) as [e |] eqn:E; [| done].
  specialize (Hu _ _ E). unfold subExponents, kept.
  destruct (JS.truthy e) eqn:T; cbn [JS.orZero]; rewrite ?T.
  - by rewrite finite_sub_self.
  - destruct (finite_falsy_sub e Hu T) as [-> ->]. done.
Qed.

(** [minus] on two bare numbers is the subtraction of JavaScript. *)
Theorem minus_numbers x y :
  minus (Number x) (Number y) = Ok (number (value x - value y)).
Proof.
  unfold minus. cbn [negate]. rewrite plus_numbers. unfold number.
  cbn [value valueWrap]. by rewrite number_sub_add_opp.
Qed.

(** Two numbers with the same units, all exponents finite, divide to a bare
    number: every exponent cancels and the [Unit] layer goes.  (Also when the
    divisor is 0 in those units: the quotient is then an infinity or NaN.) *)
Theorem divide_same_units_cancel u x y :
  finiteExponents u ->
  divide (Unit u (Number x)) (Unit u (Number y)) = Ok (number (value x / value y)).
Proof.
  intros Hu. rewrite divide_unfold. unfold divideBody. cbn [isNumberZero].
  rewrite handleCases_unfold. cbn [isUnit orb getUnit getUnitless mbind result_bind].
  rewrite handleCases_unitless by done. cbn [dispatch mbind result_bind].
  fold subExponents. rewrite (mapUnits_sub_self u Hu). done.
Qed.

Lemma finiteExponents_singleton key value :
  is_finite value = true -> finiteExponents {[ key := value ]}.
Proof.
  intros H k v. destruct (decide (k = key)) as [-> | Hne].
  - rewrite lookup_singleton_eq. by intros [= <-].
  - by rewrite lookup_singleton_ne.
Qed.

Lemma divide_same_units_cancel_witness :
  finiteExponents {[ "m" := 1 ]} /\
  divide (metres 3) (metres 4) = Ok (number 0.75) /\
  divide (metres 3) (metres 0) = Ok (number infinity).
Proof.
  assert (H : finiteExponents {[ "m" := 1 ]}) by by apply finiteExponents_singleton.
  split; [done |]. split.
  - apply (divide_same_units_cancel _ (valueWrap 3) (valueWrap 4) H).
  - apply (divide_same_units_cancel _ (valueWrap 3) (valueWrap 0) H).
Defined.

(** A number with units, all exponents finite, to the power 0 (either zero)
    is a bare number: every exponent times 0 is a zero. *)
Theorem power_zero_drops_units Math_pow u x b :
  finiteExponents u -> (value b === 0) = true ->
  power Math_pow (Unit u (Number x)) (Number b)
    = Ok (number (Math_pow (value x) (value b))).
Proof.
  intros Hu Hb. rewrite power_unit by done. cbn zeta. cbn [mbind result_bind].
  assert (mapUnit u (fun factor _ => factor * value b) = ∅) as ->; [| done].
  apply map_eq. intros key. rewrite lookup_mapUnit, lookup_empty.
  destruct (u !! key) as [e |] eqn:E; [| done]. cbn. unfold kept.
  by rewrite (finite_mul_zero e (value b) (Hu _ _ E) Hb).
Qed.

Lemma power_zero_drops_units_witness :
  let pow := fun x y : float => 1 in
  finiteExponents {[ "m" := 1 ]} /\ (value (valueWrap 0) === 0) = true /\
  power pow (metres 2) (number 0) = Ok (number 1).
Proof.
  intros pow.
  assert (H : finiteExponents {[ "m" := 1 ]}) by by apply finiteExponents_singleton.
  split; [done |]. split; [reflexivity |].
  apply (power_zero_drops_units pow _ (valueWrap 2) (valueWrap 0) H). reflexivity.
Defined.

Lemma cell_mapped g a i j :
  shaped a -> (i < m a)%nat -> (j < n a)%nat ->
  cell {| m := m a; n := n a; values := map (map g) (values a) |} i j
  = value (g (nth j (nth i (values a) []) (valueWrap 0))).
Proof.
  intros Ha Hi Hj. unfold cell. cbn [values].
  change (@nil ResultTreeNumber) with (map g []) at 1.
  rewrite (map_nth (map g) (values a) [] i).
  rewrite (nth_indep _ (valueWrap 0) (g (valueWrap 0)))
    by (rewrite length_map, shaped_row; done).
  by rewrite (map_nth g).
Qed.

Lemma negated_shaped b :
  shaped b ->
  shaped {| m := m b; n := n b;
            values := map (map (fun c => valueWrap (- value c))) (values b) |}.
Proof.
  intros [Hlen Hrows]. split; simpl.
  - by rewrite length_map.
  - apply Forall_forall. intros row (r & -> & Hr)%list_elem_of_fmap.
    rewrite length_map. rewrite Forall_forall in Hrows. by apply Hrows.
Qed.

(** [minus] on two unitless matrices of the same shape, [m] rows of [n]
    cells each: the matrix of that shape whose cells are the differences, in
    the subtraction of JavaScript, of the cells in the same place. *)
Theorem minus_unitless_matrices a b :
  shaped a -> shaped b -> m a = m b -> n a = n b ->
  exists c,
    minus (Matrix a) (Matrix b) = Ok (Matrix c)
    /\ m c = m a /\ n c = n a /\ shaped c
    /\ forall i j, (i < m a)%nat -> (j < n a)%nat ->
         cell c i j = cell a i j - cell b i j.
Proof.
  intros Ha Hb Hm Hn. unfold minus. cbn [negate].
  set (b' := {| m := m b; n := n b;
                values := map (map (fun c => valueWrap (- value c))) (values b) |}).
  assert (Hb' : shaped b') by by apply negated_shaped.
  exists (sumOfMatrices a b').
  split; [by apply plus_matrices_fitting |].
  split; [done |]. split; [done |]. split; [apply tabulate_shaped |].
  intros i j Hi Hj. unfold sumOfMatrices. rewrite tabulate_cell by done.
  subst b'. rewrite cell_mapped by (done || lia). cbn [value valueWrap].
  by rewrite number_sub_add_opp.
Qed.

Lemma minus_unitless_matrices_witness :
  shaped (matrix_2x2 10 20 30 40) /\ shaped (matrix_2x2 1 2 3 4) /\
  m (matrix_2x2 10 20 30 40) = m (matrix_2x2 1 2 3 4) /\
  n (matrix_2x2 10 20 30 40) = n (matrix_2x2 1 2 3 4) /\
  exists c,
    minus (Matrix (matrix_2x2 10 20 30 40)) (Matrix (matrix_2x2 1 2 3 4)) = Ok (Matrix c)
    /\ cell c 1 0 = 27.
Proof.
  split; [apply matrix_2x2_shaped |]. split; [apply matrix_2x2_shaped |].
  split; [reflexivity |]. split; [reflexivity |].
  destruct (minus_unitless_matrices (matrix_2x2 10 20 30 40) (matrix_2x2 1 2 3 4)
              (matrix_2x2_shaped _ _ _ _) (matrix_2x2_shaped _ _ _ _) eq_refl eq_refl)
    as (c & Hc & _ & _ & _ & Hcell).
  exists c. split; [exact Hc |]. rewrite Hcell by (cbn; lia). reflexivity.
Defined.

(** One call at m, which both lookups have, one at s, which only the second
    has, none at another key.  (And none at a unit named constructor in the
    second lookup: the first inherits a member of that name.) *)
Lemma mapUnit_mapUnits_calls_witness :
  truthyExponents {[ "m" := 2 ]} /\
  plainKeys {[ "m" := 2 ]} /\ plainKeys (<[ "s" := 1 ]> {[ "m" := 1 ]}) /\
  calls "m" (mapUnitsTraced {[ "m" := 2 ]} (<[ "s" := 1 ]> {[ "m" := 1 ]})
               addExponents).2 = 1%nat /\
  calls "s" (mapUnitsTraced {[ "m" := 2 ]} (<[ "s" := 1 ]> {[ "m" := 1 ]})
               addExponents).2 = 1%nat /\
  calls "kg" (mapUnitsTraced {[ "m" := 2 ]} (<[ "s" := 1 ]> {[ "m" := 1 ]})
                addExponents).2 = 0%nat /\
  calls "constructor" (mapUnitsTraced {[ "m" := 2 ]} {[ "constructor" := 1 ]}
                         addExponents).2 = 0%nat.
Proof.
  assert (H : truthyExponents {[ "m" := 2 ]}) by by apply truthyExponents_singleton.
  assert (Pa : plainKeys {[ "m" := 2 ]}) by by apply plainKeys_singleton.
  assert (Pb : plainKeys (<[ "s" := 1 ]> {[ "m" := 1 ]})).
  { apply plainKeys_insert; [done |]. by apply plainKeys_singleton. }
  split; [done |]. split; [done |]. split; [done |].
  split; [| split; [| split]].
  - rewrite (proj2 mapUnit_mapUnits_calls _ _ _ _ H Pa Pb). reflexivity.
  - rewrite (proj2 mapUnit_mapUnits_calls _ _ _ _ H Pa Pb). reflexivity.
  - rewrite (proj2 mapUnit_mapUnits_calls _ _ _ _ H Pa Pb). reflexivity.
  - vm_compute. reflexivity.
Defined.
